(** * The k0s runtime of sealer (package [k0s]), embedded and verified

    The development follows the runtime file of package [k0s]: the [Runtime]
    structure, its construction and check, the fan-out helpers built on
    [errgroup], the join command plans and the version read.  A last part
    covers the image pull of the buildah engine (package [buildah]).

    Conventions of the embedding.
    - A Go [error] is [option string]: [None] is [nil], [Some m] an error with
      message [m].
    - A [net.IP] is [option string]: [None] is the nil slice, [Some s] an
      address whose [String()] rendering is [s].
    - Remote work is recorded as a list of [Event]s next to the value a
      function returns.
    - A goroutine started by [errgroup.Group.Go] is a [Task]: the error it
      ends with and the events it performs when it runs to completion. *)

From Stdlib Require Import ZArith Lia List String Ascii Permutation.
From stdpp Require Import base gmap strings list.
Import ListNotations.

Local Open Scope string_scope.
Local Open Scope list_scope.

(** ** Basic data *)

Definition error : Type := option string.

Definition IP : Type := option string.

(** [net.IP.String]: the nil address prints as ["<nil>"]. *)
Definition IP_String (ip : IP) : string :=
  match ip with
  | Some s => s
  | None => "<nil>"
  end.

(** The double quote character, for the command texts that contain it. *)
Definition dquote : string := String (ascii_of_nat 34) EmptyString.

(** [fmt.Errorf(prefix + "%v", err)]. *)
Definition Errorf_v (prefix : string) (err : string) : error :=
  Some (prefix +:+ err).

(** ** Remote events and the trace of a call *)

Inductive Event : Type :=
| EvCopy (host : IP) (src dst : string)
| EvPing (host : IP)
| EvCmd (host : IP) (cmd : string)
| EvSleep (seconds : Z)
| EvInfo (msg : string) (ips : list IP).

(** A computation that returns a value and performs events. *)
Definition Act (A : Type) : Type := (A * list Event)%type.

Definition ret {A : Type} (a : A) : Act A := (a, []).

Definition bind {A B : Type} (m : Act A) (f : A -> Act B) : Act B :=
  let (b, t) := f (fst m) in (b, snd m ++ t).

Definition emit (e : Event) : Act unit := (tt, [e]).

Notation "'let*' x ':=' m 'in' k" := (bind m (fun x => k))
  (at level 10, x name, m at level 100, k at level 200, only parsing).

(** ** errgroup *)

Definition Task : Type := Act error.

Module errgroup.

(** The functions started with [Go], in the order of the calls. *)
Record Group : Type := { goroutines : list Task }.

Definition WithContext : Group := {| goroutines := [] |}.

Definition Go (eg : Group) (f : Task) : Group :=
  {| goroutines := goroutines eg ++ [f] |}.

(** The first non-nil error of tasks listed in the order they finished. *)
Fixpoint firstError (finished : list Task) : error :=
  match finished with
  | [] => None
  | t :: rest =>
      match fst t with
      | Some e => Some e
      | None => firstError rest
      end
  end.

(** [Wait] blocks until every function started with [Go] has returned and
    gives the first non-nil error, if any.  The order in which the
    goroutines finish is not fixed by the program: [finish] rearranges the
    started tasks into that order.  The context made by [WithContext] is
    discarded by every caller ([eg, _ := ...]), so no task is cancelled. *)
Definition Wait (finish : list Task -> list Task) (eg : Group) : Act error :=
  let finished := finish (goroutines eg) in
  (firstError finished, concat (map snd finished)).

End errgroup.

(** What a function that starts goroutines leaves behind when it returns:
    the error it returns, the events of the work it waited for, and the
    goroutines it started without waiting for them. *)
Record Outcome : Type := {
  returned : error;
  trace : list Event;
  unjoined : list Task
}.

(** ** strings *)

(** [strings.Split(s, sep)] for a one-byte separator: the pieces of [s]
    between the occurrences of [sep]; never the empty list. *)
Fixpoint Split (s : string) (sep : ascii) : list string :=
  match s with
  | EmptyString => [EmptyString]
  | String c s' =>
      if Ascii.eqb c sep then EmptyString :: Split s' sep
      else match Split s' sep with
           | piece :: pieces => String c piece :: pieces
           | [] => [String c EmptyString]
           end
  end.

(** Whether the byte [c] occurs in [s]. *)
Fixpoint contains (s : string) (c : ascii) : bool :=
  match s with
  | EmptyString => false
  | String a s' => Ascii.eqb a c || contains s' c
  end.

(** ASCII white space as [strings.TrimSpace] sees it. *)
Definition isSpace (c : ascii) : bool :=
  let n := nat_of_ascii c in
  (n =? 32)%nat || ((9 <=? n)%nat && (n <=? 13)%nat).

Fixpoint TrimLeft (s : string) : string :=
  match s with
  | EmptyString => EmptyString
  | String c s' => if isSpace c then TrimLeft s' else s
  end.

Fixpoint TrimRight (s : string) : string :=
  match s with
  | EmptyString => EmptyString
  | String c s' =>
      match TrimRight s' with
      | EmptyString => if isSpace c then EmptyString else String c EmptyString
      | r => String c r
      end
  end.

(** The trimming the specification of the version read speaks of; the
    runtime itself never calls it. *)
Definition TrimSpace (s : string) : string := TrimRight (TrimLeft s).

(** ** The cluster, the registry configuration and the SSH interface *)

Record Host : Type := { IPS : list IP; Roles : list string }.

Record ClusterSpec : Type := { Hosts : list Host }.

Record Cluster : Type := { Name : string; Spec : ClusterSpec }.

(** Modelled from the spec: the accessors of [v2.Cluster] are declared in
    [types/api/v2], outside the verified sources.  Section 3 of the
    specification: [MasterIPs] is the ordered sequence of the addresses of
    the hosts with the master role. *)
Definition GetMasterIPList (c : Cluster) : list IP :=
  flat_map IPS
    (List.filter (fun h => existsb (String.eqb "master") (Roles h))
       (Hosts (Spec c))).

(** Modelled from the spec: [GetMaster0IP] is declared in [types/api/v2] as
    well.  Section 3: [MasterIPs[0]] is master0; the result is nil when there
    is no master address. *)
Definition GetMaster0IP (c : Cluster) : IP :=
  match GetMasterIPList c with
  | [] => None
  | ip :: _ => ip
  end.

(** [registry.Config]: the two fields this package reads, both printed with
    the verb [%s]. *)
Record Config : Type := { Domain : string; Port : string }.

(** [ssh.Interface], restricted to the methods this package calls.  The
    outcome of [Ping] may change from one attempt to the next (a host that
    comes up): its second argument is the number of earlier pings of that
    host. *)
Record SSHInterface : Type := {
  Copy : IP -> string -> string -> error;
  Ping : IP -> nat -> error;
  Cmd : IP -> string -> string * error
}.

(** [runtime.Metadata], restricted to the fields this package writes; the
    zero value has both empty. *)
Record Metadata : Type := { Version : string; ClusterRuntime : string }.

Definition Metadata_zero : Metadata :=
  {| Version := EmptyString; ClusterRuntime := EmptyString |}.

(** The [Runtime] structure.  [RegConfig] is a pointer: [None] is nil. *)
Record Runtime : Type := {
  cluster : Cluster;
  Vlog : Z;
  RegConfig : option Config
}.

(** ** Sample values

    The cluster of scenario S1 of the specification (one master, two
    workers, registry [sea.hub:5000]) and SSH clients to run the runtime
    against. *)

Definition master1 : IP := Some "10.0.0.1".
Definition worker2 : IP := Some "10.0.0.2".
Definition worker3 : IP := Some "10.0.0.3".

Definition demoCluster : Cluster :=
  {| Name := "demo";
     Spec := {| Hosts := [ {| IPS := [master1]; Roles := ["master"] |};
                           {| IPS := [worker2; worker3];
                              Roles := ["node"] |} ] |} |}.

Definition emptyCluster : Cluster :=
  {| Name := "empty"; Spec := {| Hosts := [] |} |}.

Definition demoRegistry : Config := {| Domain := "sea.hub"; Port := "5000" |}.

Definition demoRuntime : Runtime :=
  {| cluster := demoCluster; Vlog := 0; RegConfig := Some demoRegistry |}.

(** A line feed, as a command prints it after its output. *)
Definition LF : string := String (ascii_of_nat 10) EmptyString.

(** A client for which [10.0.0.3] drops every copy (scenario S2), every host
    answers its third ping, and the version command prints a version with a
    build suffix. *)
Definition demoSSH : SSHInterface :=
  {| Copy := fun host _ _ =>
       if String.eqb (IP_String host) "10.0.0.3"
       then Some "dial tcp 10.0.0.3:22: i/o timeout"
       else None;
     Ping := fun _ n => if (n <? 2)%nat then Some "connection refused" else None;
     Cmd := fun _ _ => ("v1.23.3+k0s.0" +:+ LF, None) |}.

(** A client whose version command prints a version without build suffix. *)
Definition plainSSH : SSHInterface :=
  {| Copy := fun _ _ _ => None;
     Ping := fun _ _ => None;
     Cmd := fun _ _ => ("v1.23.3" +:+ LF, None) |}.

(** A client whose version command fails. *)
Definition brokenSSH : SSHInterface :=
  {| Copy := fun _ _ _ => None;
     Ping := fun _ _ => None;
     Cmd := fun _ _ => (EmptyString, Some "exit status 127") |}.

Definition demoClient (ssh : SSHInterface) (hostIP : IP) (c : Cluster)
  : SSHInterface + string :=
  match hostIP with
  | None => inr "get host failed: host is nil"
  | Some _ => inl ssh
  end.

Definition demoGetConfig (rootfs : string) (defaultRegistryIP : IP)
  : option Config :=
  Some demoRegistry.

Definition demoMountDir (clusterName : string) : string :=
  "/var/lib/sealer/data/" +:+ clusterName +:+ "/mount".

(** Values for the constants of the package, to run the runtime with. *)
Definition demoRuntimeFlag : string := "k0s".
Definition demoExternalCRI : string := "remote:/run/containerd/containerd.sock".
Definition demoConfigPath : string := "/etc/k0s/k0s.yaml".
Definition demoWorkerJoin : string := "/etc/k0s/worker".
Definition demoControllerJoin : string := "/etc/k0s/controller".
Definition demoWorkerRole : string := "worker".
Definition demoControllerRole : string := "controller".
Definition demoVersionCmd : string := "k0s version".

Definition demoJoinPlan (k : Runtime) (role : string) (ips : list IP)
  : Act error :=
  (None, [EvCmd (GetMaster0IP (cluster k)) ("join " +:+ role)]).

(** ** The image pull of the buildah engine (package [buildah])

    [Engine.Pull] validates its options, then calls the library's
    [buildah.Pull] once.  The library and the helpers of the package that
    are outside the verified sources are gathered in [PullWorld]. *)

Module types.

(** [types.SystemContext], restricted to the fields [Pull] reads or
    writes. *)
Record SystemContext : Type := {
  AuthFilePath : string;
  OSChoice : string;
  ArchitectureChoice : string;
  VariantChoice : string
}.

End types.

Module options.

(** [options.PullOptions] of sealer, restricted to the fields [Pull]
    reads. *)
Record PullOptions : Type := {
  Image : string;
  Platform : string;
  PullPolicy : string;
  Quiet : bool
}.

End options.

Module buildah.

(** The report writer is [os.Stderr] or nil. *)
Inductive Writer : Type := Stderr.

(** [buildah.PullOptions], restricted to the fields [Pull] sets.  The store
    is an opaque handle, named by a string; a pull policy is an integer. *)
Record PullOptions : Type := {
  Store : string;
  SystemContext : types.SystemContext;
  AllTags : bool;
  ReportWriter : option Writer;
  MaxRetries : Z;
  RetryDelay : Z;
  PullPolicy : Z
}.

End buildah.

(** The engine, seen through its accessors [SystemContext()] and
    [ImageStore()]. *)
Record Engine : Type := {
  engineSystemContext : types.SystemContext;
  engineImageStore : string
}.

(** What [Pull] calls outside the verified sources: [auth.CheckAuthFile],
    [parse.Platform] (os, arch, variant and an error), [define.PolicyMap],
    the package's [systemContext()], its two retry constants, the library's
    [buildah.Pull] (the image id and an error) and the quoting of the verb
    [%q]. *)
Record PullWorld : Type := {
  CheckAuthFile : string -> error;
  parsePlatform : string -> (string * string * string) * error;
  PolicyMap : gmap string Z;
  systemContext : types.SystemContext;
  maxPullPushRetries : Z;
  pullPushRetryDelay : Z;
  buildahPull : string -> buildah.PullOptions -> string * error;
  Quote : string -> string
}.

Inductive PullEvent : Type :=
| EvPull (image : string) (o : buildah.PullOptions)
| EvInfoId (id : string).

(** The options [Pull] hands to the library once the checks have passed. *)
Definition pullOptions (w : PullWorld) (engine : Engine)
  (opts : options.PullOptions) (_os arch variant : string) (policy : Z)
  : buildah.PullOptions :=
  let newSystemCxt := systemContext w in
  let newSystemCxt :=
    {| types.AuthFilePath := types.AuthFilePath newSystemCxt;
       types.OSChoice := _os;
       types.ArchitectureChoice := arch;
       types.VariantChoice := variant |} in
  let o :=
    {| buildah.Store := engineImageStore engine;
       buildah.SystemContext := newSystemCxt;
       buildah.AllTags := false;
       buildah.ReportWriter := Some buildah.Stderr;
       buildah.MaxRetries := maxPullPushRetries w;
       buildah.RetryDelay := pullPushRetryDelay w;
       buildah.PullPolicy := policy |} in
  if options.Quiet opts then
    {| buildah.Store := buildah.Store o;
       buildah.SystemContext := buildah.SystemContext o;
       buildah.AllTags := buildah.AllTags o;
       buildah.ReportWriter := None;
       buildah.MaxRetries := buildah.MaxRetries o;
       buildah.RetryDelay := buildah.RetryDelay o;
       buildah.PullPolicy := buildah.PullPolicy o |}
  else o.

(** [Engine.Pull]: the error it returns and the calls it makes. *)
Definition Pull (w : PullWorld) (engine : Engine)
  (opts : options.PullOptions) : error * list PullEvent :=
  if (String.length (options.Image opts) =? 0)%nat then
    (Some "an image name must be specified", [])
  else
    let systemCxt := engineSystemContext engine in
    match CheckAuthFile w (types.AuthFilePath systemCxt) with
    | Some err => (Some err, [])
    | None =>
        match parsePlatform w (options.Platform opts) with
        | (_, Some err) =>
            (Some ("failed to init platform from " +:+ options.Platform opts
                   +:+ ": " +:+ err), [])
        | ((_os, arch, variant), None) =>
            match PolicyMap w !! options.PullPolicy opts with
            | None =>
                (Some ("unsupported pull policy " +:+
                       Quote w (options.PullPolicy opts)), [])
            | Some policy =>
                let o := pullOptions w engine opts _os arch variant policy in
                match buildahPull w (options.Image opts) o with
                | (_, Some err) => (Some err, [EvPull (options.Image opts) o])
                | (id, None) =>
                    (None, [EvPull (options.Image opts) o; EvInfoId id])
                end
            end
        end
    end.

(** Whether the library's pull is among the calls. *)
Definition isPull (e : PullEvent) : bool :=
  match e with
  | EvPull _ _ => true
  | EvInfoId _ => false
  end.

(** A sample engine and world: three pull policies, two platforms, an image
    that is not found. *)
Definition demoEngine : Engine :=
  {| engineSystemContext :=
       {| types.AuthFilePath := "/run/containers/0/auth.json";
          types.OSChoice := "linux";
          types.ArchitectureChoice := "amd64";
          types.VariantChoice := EmptyString |};
     engineImageStore := "/var/lib/containers/storage" |}.

Definition demoPullWorld : PullWorld :=
  {| CheckAuthFile := fun path =>
       if String.eqb path EmptyString then Some "auth file is empty" else None;
     parsePlatform := fun p =>
       if String.eqb p "linux/arm64" then (("linux", "arm64", "v8"), None)
       else if String.eqb p EmptyString then (("linux", "amd64", EmptyString), None)
       else ((EmptyString, EmptyString, EmptyString), Some "unknown platform");
     PolicyMap := <["missing" := 0%Z]> (<["always" := 1%Z]> (<["never" := 3%Z]> ∅));
     systemContext :=
       {| types.AuthFilePath := EmptyString;
          types.OSChoice := EmptyString;
          types.ArchitectureChoice := EmptyString;
          types.VariantChoice := EmptyString |};
     maxPullPushRetries := 3;
     pullPushRetryDelay := 2;
     buildahPull := fun image _ =>
       if String.eqb image "gone:latest" then (EmptyString, Some "manifest unknown")
       else ("3f1c9a", None);
     Quote := fun s => dquote +:+ s +:+ dquote |}.

Definition demoPullOpts : options.PullOptions :=
  {| options.Image := "kubernetes:v1.23.3";
     options.Platform := "linux/arm64";
     options.PullPolicy := "missing";
     options.Quiet := true |}.

(** A runtime on the cluster without hosts: master0 has no address, and no
    client is obtained for it. *)
Definition lostRuntime : Runtime :=
  {| cluster := emptyCluster; Vlog := 0; RegConfig := None |}.

Definition demoRemoval (k : Runtime) (ips : list IP) : Act error :=
  (Some "drain failed", [EvCmd (GetMaster0IP (cluster k)) "k0s kubectl drain"]).

(** Variants of the sample pull: an engine without auth file path and
    options that fail one check each. *)
Definition noAuthEngine : Engine :=
  {| engineSystemContext :=
       {| types.AuthFilePath := EmptyString;
          types.OSChoice := "linux";
          types.ArchitectureChoice := "amd64";
          types.VariantChoice := EmptyString |};
     engineImageStore := "/var/lib/containers/storage" |}.

Definition noImageOpts : options.PullOptions :=
  {| options.Image := EmptyString;
     options.Platform := "linux/arm64";
     options.PullPolicy := "missing";
     options.Quiet := false |}.

Definition badPlatformOpts : options.PullOptions :=
  {| options.Image := "kubernetes:v1.23.3";
     options.Platform := "plan9/mips";
     options.PullPolicy := "missing";
     options.Quiet := false |}.

Definition badPolicyOpts : options.PullOptions :=
  {| options.Image := "kubernetes:v1.23.3";
     options.Platform := "linux/arm64";
     options.PullPolicy := "sometimes";
     options.Quiet := false |}.

(** ** The runtime *)

Section K0s.

(** The constants of the package ([constants.go] is outside the verified
    sources): their values are left open.  Go rejects a [switch] or a map
    literal with two equal constant keys, so the two role names differ. *)
Variables RuntimeFlag ExternalCRI DefaultK0sConfigPath : string.
Variables DefaultK0sWorkerJoin DefaultK0sControllerJoin : string.
Variables WorkerRole ControllerRole VersionCmd : string.
Hypothesis roles_distinct : ControllerRole <> WorkerRole.

(** [ssh.NewStdoutSSHClient(hostIP, cluster)]: a client or an error. *)
Variable NewStdoutSSHClient : IP -> Cluster -> SSHInterface + string.

(** [registry.GetConfig(rootfs, defaultRegistryIP)] reads the registry
    configuration under the mount directory on the controller. *)
Variable GetConfig : string -> IP -> option Config.

(** [platform.DefaultMountClusterImageDir(clusterName)]. *)
Variable DefaultMountClusterImageDir : string -> string.

(** [logrus.GetLevel() == logrus.DebugLevel]. *)
Variable debugLevel : bool.

(** The order in which the goroutines of one group finish. *)
Variable finish : list Task -> list Task.
Hypothesis finish_perm : forall l, Permutation (finish l) l.

(** The remote phases of a join (prepare the hosts, fetch a fresh token
    from master0, apply the join plan); their code is outside the verified
    sources. *)
Variable joinPlan : Runtime -> string -> list IP -> Act error.

Definition getImageMountDir (k : Runtime) : string :=
  DefaultMountClusterImageDir (Name (cluster k)).

Definition getHostSSHClient (k : Runtime) (hostIP : IP)
  : SSHInterface + string :=
  NewStdoutSSHClient hostIP (cluster k).

(** [checkList]: the hosts of the cluster specification cannot be empty
    and master0 must have an address. *)
Definition checkList (k : Runtime) : error :=
  if (length (Hosts (Spec (cluster k))) =? 0)%nat then
    Some "hosts spec cannot be empty"
  else
    match GetMaster0IP (cluster k) with
    | None => Some "master0 IP cannot be empty"
    | Some _ => None
    end.

Definition setDebugLevel (k : Runtime) : Runtime :=
  if debugLevel then
    {| cluster := cluster k; Vlog := 6; RegConfig := RegConfig k |}
  else k.

(** [newK0sRuntime]: the installer (a pointer to the runtime, or nil) and
    the error.  After the check the function returns [nil, nil]; the
    [return k, nil] of the source is commented out. *)
Definition newK0sRuntime (c : Cluster) : Act (option Runtime * error) :=
  let k := {| cluster := c; Vlog := 0; RegConfig := None |} in
  let k := {| cluster := cluster k; Vlog := Vlog k;
              RegConfig := GetConfig (getImageMountDir k)
                             (GetMaster0IP (cluster k)) |} in
  match checkList k with
  | Some err => ret (None, Some err)
  | None =>
      let k := setDebugLevel k in
      ret (None, None)
  end.

Definition NewK0sRuntime (c : Cluster) : Act (option Runtime * error) :=
  newK0sRuntime c.

(** The goroutine [sendFileToHosts] starts for [node].  Its last
    [return err] names the error of [getHostSSHClient], nil at that
    point. *)
Definition sendFileTask (k : Runtime) (src dst : string) (node : IP)
  : Task :=
  match getHostSSHClient k node with
  | inr err => (Errorf_v "failed to send file: " err, [])
  | inl sshClient =>
      match Copy sshClient node src dst with
      | Some err =>
          (Errorf_v "failed to send file: " err, [EvCopy node src dst])
      | None => (None, [EvCopy node src dst])
      end
  end.

Definition sendFileToHosts (k : Runtime) (hosts : list IP)
  (src dst : string) : Outcome :=
  let eg :=
    fold_left (fun eg node => errgroup.Go eg (sendFileTask k src dst node))
      hosts errgroup.WithContext in
  let (err, events) := errgroup.Wait finish eg in
  {| returned := err; trace := events; unjoined := [] |}.

Definition timeoutError (host : IP) : error :=
  Some ("wait for [" +:+ IP_String host +:+
        "] ssh ready timeout, ensure that the IP address or password is correct").

(** The loop [for i := 0; i < tryTimes; i++] of the goroutine of
    [WaitSSHReady], with [left] iterations to go and counter [i]. *)
Fixpoint pingLoop (k : Runtime) (host : IP) (left i : nat) : Task :=
  match left with
  | O => (timeoutError host, [])
  | S left' =>
      match getHostSSHClient k host with
      | inr err => (Some err, [])
      | inl sshClient =>
          match Ping sshClient host i with
          | None => (None, [EvPing host])
          | Some _ =>
              let (r, events) := pingLoop k host left' (S i) in
              (r, EvPing host :: EvSleep (Z.of_nat i) :: events)
          end
      end
  end.

(** [tryTimes] is a Go [int]; the loop body runs [max tryTimes 0] times. *)
Definition waitTask (k : Runtime) (tryTimes : Z) (host : IP) : Task :=
  pingLoop k host (Z.to_nat tryTimes) 0.

Definition WaitSSHReady (k : Runtime) (tryTimes : Z) (hosts : list IP)
  : Outcome :=
  let eg :=
    fold_left (fun eg h => errgroup.Go eg (waitTask k tryTimes h))
      hosts errgroup.WithContext in
  let (err, events) := errgroup.Wait finish eg in
  {| returned := err; trace := events; unjoined := [] |}.

(** The [switch role] of [CopyJoinToken]. *)
Definition joinCertPath (role : string) : string :=
  if String.eqb role ControllerRole then DefaultK0sControllerJoin
  else if String.eqb role WorkerRole then DefaultK0sWorkerJoin
  else DefaultK0sWorkerJoin.

Definition copyTokenTask (ssh : SSHInterface) (path : string) (host : IP)
  : Task :=
  (Copy ssh host path path, [EvCopy host path path]).

(** [CopyJoinToken] starts one goroutine per host and returns nil; it
    never calls [eg.Wait]. *)
Definition CopyJoinToken (k : Runtime) (role : string) (hosts : list IP)
  : Outcome :=
  match getHostSSHClient k (GetMaster0IP (cluster k)) with
  | inr err => {| returned := Some err; trace := []; unjoined := [] |}
  | inl ssh =>
      let eg :=
        fold_left
          (fun eg host =>
             errgroup.Go eg (copyTokenTask ssh (joinCertPath role) host))
          hosts errgroup.WithContext in
      {| returned := None; trace := [];
         unjoined := errgroup.goroutines eg |}
  end.

Definition controllerCommands (cfg : Config) : list string :=
  [ "mkdir -r /etc/k0s";
    "k0s config create > " +:+ DefaultK0sConfigPath;
    "sed -i '/  images/ a\    repository: " +:+ dquote +:+ Domain cfg +:+
      ":" +:+ Port cfg +:+ dquote +:+ "' " +:+ DefaultK0sConfigPath;
    "k0s install controller --token-file " +:+ DefaultK0sControllerJoin +:+
      " -c " +:+ DefaultK0sConfigPath +:+ " --cri-socket " +:+ ExternalCRI;
    "k0s start" ].

Definition workerCommands : list string :=
  [ "k0s install worker --cri-socket " +:+ ExternalCRI +:+
      " --token-file " +:+ DefaultK0sWorkerJoin;
    "k0s start" ].

(** [JoinCommand]: the map literal is built first (it reads
    [k.RegConfig.Domain], so a nil [RegConfig] panics: [None]), then looked
    up at [role]; a role that is not a key gives the nil slice, [[]]. *)
Definition JoinCommand (k : Runtime) (role : string)
  : option (list string) :=
  match RegConfig k with
  | None => None
  | Some cfg =>
      let cmds : gmap string (list string) :=
        <[WorkerRole := workerCommands]>
          (<[ControllerRole := controllerCommands cfg]> ∅) in
      match cmds !! role with
      | Some v => Some v
      | None => Some []
      end
  end.

(** [getKubeVersion]: the output of the version command on master0, cut at
    the first ["+"].  [Split] never returns the empty list, so the index
    [0] is always in range. *)
Definition getKubeVersion (k : Runtime) : Act (string * error) :=
  let master0 := GetMaster0IP (cluster k) in
  match getHostSSHClient k master0 with
  | inr err => ret (EmptyString, Some err)
  | inl ssh =>
      match Cmd ssh master0 VersionCmd with
      | (_, Some err) => ((EmptyString, Some err), [EvCmd master0 VersionCmd])
      | (bytes, None) =>
          ((nth 0 (Split bytes "+"%char) EmptyString, None),
           [EvCmd master0 VersionCmd])
      end
  end.

Definition getClusterMetadata (k : Runtime) : Act (Metadata * error) :=
  let metadata := Metadata_zero in
  let* r := getKubeVersion k in
  match r with
  | (_, Some err) => ret (metadata, Some err)
  | (version, None) =>
      ret ({| Version := version; ClusterRuntime := RuntimeFlag |}, None)
  end.

Definition GetClusterMetadata (k : Runtime) : Act (Metadata * error) :=
  getClusterMetadata k.

(** Modelled from the spec: [joinMasters] and [joinNodes] are declared in
    files of the package that are outside the verified sources.
    Section 4.6: "no-op if input empty; otherwise prepare hosts, fetch
    fresh token from master0, apply join plan". *)
Definition joinMasters (k : Runtime) (masters : list IP) : Act error :=
  match masters with
  | [] => ret None
  | _ => joinPlan k ControllerRole masters
  end.

Definition joinNodes (k : Runtime) (nodes : list IP) : Act error :=
  match nodes with
  | [] => ret None
  | _ => joinPlan k WorkerRole nodes
  end.

Definition JoinMasters (k : Runtime) (newMastersIPList : list IP)
  : Act error :=
  let* _ := (if (length newMastersIPList =? 0)%nat then ret tt
             else emit (EvInfo "%s will be added as master"
                          newMastersIPList)) in
  joinMasters k newMastersIPList.

Definition JoinNodes (k : Runtime) (newNodesIPList : list IP)
  : Act error :=
  let* _ := (if (length newNodesIPList =? 0)%nat then ret tt
             else emit (EvInfo "%s will be added as worker"
                          newNodesIPList)) in
  joinNodes k newNodesIPList.


(** [deleteMasters] and [deleteNodes]: the removal of hosts, whose code is
    outside the verified sources. *)
Variables deleteMasters deleteNodes : Runtime -> list IP -> Act error.

Definition DeleteMasters (k : Runtime) (mastersIPList : list IP)
  : Act error :=
  if (length mastersIPList =? 0)%nat then ret None
  else
    let* _ := emit (EvInfo "master %s will be deleted" mastersIPList) in
    deleteMasters k mastersIPList.

Definition DeleteNodes (k : Runtime) (nodesIPList : list IP) : Act error :=
  if (length nodesIPList =? 0)%nat then ret None
  else
    let* _ := emit (EvInfo "worker %s will be deleted" nodesIPList) in
    deleteNodes k nodesIPList.

(** The number of pings in a trace. *)
Definition isPing (e : Event) : bool :=
  match e with
  | EvPing _ => true
  | _ => false
  end.

Definition pings (events : list Event) : nat :=
  length (List.filter isPing events).

(** Equality of addresses, as a test. *)
Definition IP_eqb (a b : IP) : bool :=
  match a, b with
  | Some x, Some y => String.eqb x y
  | None, None => true
  | _, _ => false
  end.

(** The number of pings of [host] in a trace, and the number of times
    [host] is listed in [hosts]. *)
Definition isPingOf (host : IP) (e : Event) : bool :=
  match e with
  | EvPing h => IP_eqb host h
  | _ => false
  end.

Definition pingsOf (host : IP) (events : list Event) : nat :=
  length (List.filter (isPingOf host) events).

Definition occurrences (host : IP) (hosts : list IP) : nat :=
  length (List.filter (IP_eqb host) hosts).

(** Whether a client is obtained for [node]. *)
Definition hasClient (k : Runtime) (node : IP) : bool :=
  match getHostSSHClient k node with
  | inl _ => true
  | inr _ => false
  end.

(** Whether the copy to [node] goes through: a client is obtained and its
    [Copy] returns nil. *)
Definition copySucceeds (k : Runtime) (src dst : string) (node : IP)
  : bool :=
  match getHostSSHClient k node with
  | inl sshClient =>
      match Copy sshClient node src dst with
      | None => true
      | Some _ => false
      end
  | inr _ => false
  end.

(** The events of [n] failed pings of [host], the first with counter [i]:
    each is followed by the sleep of the loop. *)
Fixpoint failedPings (host : IP) (i n : nat) : list Event :=
  match n with
  | O => []
  | S n' => EvPing host :: EvSleep (Z.of_nat i) :: failedPings host (S i) n'
  end.

(** ** Facts about errgroup and Split *)

Lemma goroutines_started (f : IP -> Task) (hosts : list IP)
  (eg : errgroup.Group) :
  errgroup.goroutines
    (fold_left (fun eg h => errgroup.Go eg (f h)) hosts eg)
  = errgroup.goroutines eg ++ map f hosts.
Proof.
  revert eg.
  induction hosts as [|h hosts IH]; intros eg; simpl.
  - now rewrite app_nil_r.
  - rewrite IH. simpl. now rewrite <- app_assoc.
Qed.

Lemma firstError_nil_iff (l : list Task) :
  errgroup.firstError l = None <-> Forall (fun t : Task => fst t = None) l.
Proof.
  induction l as [|t l IH]; simpl.
  - split; [constructor | reflexivity].
  - destruct (fst t) as [e|] eqn:E.
    + split; [discriminate |].
      intros H. apply Forall_inv in H. simpl in H. congruence.
    + rewrite IH. split.
      * intros H. now constructor.
      * intros H. now inversion H.
Qed.

Lemma firstError_some (l : list Task) (e : string) :
  errgroup.firstError l = Some e ->
  exists before t after,
    l = before ++ t :: after
    /\ Forall (fun t' : Task => fst t' = None) before
    /\ fst t = Some e.
Proof.
  induction l as [|t l IH]; simpl; [discriminate |].
  destruct (fst t) as [e'|] eqn:E.
  - intros [= ->]. exists [], t, l. repeat split; [constructor | exact E].
  - intros H. destruct (IH H) as (before & t' & after & -> & Hb & Ht).
    exists (t :: before), t', after. repeat split; [|exact Ht].
    now constructor.
Qed.

Lemma Split_nonempty (s : string) (sep : ascii) : Split s sep <> [].
Proof.
  destruct s as [|c s]; simpl; [discriminate |].
  destruct (Ascii.eqb c sep); [discriminate |].
  destruct (Split s sep); discriminate.
Qed.

(** The first piece holds no separator; it is all of [s] when [s] holds
    none, and otherwise [s] is that piece, the separator and a rest. *)
Lemma Split_head (s : string) (sep : ascii) :
  let v := nth 0 (Split s sep) EmptyString in
  contains v sep = false
  /\ (contains s sep = false -> v = s)
  /\ (contains s sep = true ->
      exists rest, s = v +:+ String sep rest).
Proof.
  induction s as [|c s IH]; simpl.
  - repeat split; [discriminate].
  - destruct (Ascii.eqb c sep) eqn:E; simpl.
    + apply Ascii.eqb_eq in E. subst c.
      repeat split; [discriminate |].
      intros _. now exists s.
    + destruct IH as (IH1 & IH2 & IH3).
      pose proof (Split_nonempty s sep) as Hne.
      destruct (Split s sep) as [|piece pieces]; [congruence |].
      simpl in *. rewrite E. simpl.
      repeat split.
      * exact IH1.
      * intros H. now rewrite IH2.
      * intros H. destruct (IH3 H) as [rest ->].
        now exists rest.
Qed.

Lemma checkList_nil_iff (k : Runtime) :
  checkList k = None <->
  Hosts (Spec (cluster k)) <> [] /\ GetMaster0IP (cluster k) <> None.
Proof.
  unfold checkList.
  destruct (Hosts (Spec (cluster k))) as [|h hs]; simpl.
  - split; [discriminate | intros [H _]; congruence].
  - destruct (GetMaster0IP (cluster k)).
    + split; [intros _; split; discriminate | reflexivity].
    + split; [discriminate | intros [_ H]; congruence].
Qed.

Lemma sendFileTask_nil_iff (k : Runtime) (src dst : string) (node : IP) :
  fst (sendFileTask k src dst node) = None
  <-> copySucceeds k src dst node = true.
Proof.
  unfold sendFileTask, copySucceeds, Errorf_v.
  destruct (getHostSSHClient k node) as [c|err]; simpl.
  - destruct (Copy c node src dst); simpl; split; congruence.
  - split; discriminate.
Qed.

Lemma sendFileToHosts_unfold (k : Runtime) (hosts : list IP)
  (src dst : string) :
  sendFileToHosts k hosts src dst
  = let finished := finish (map (sendFileTask k src dst) hosts) in
    {| returned := errgroup.firstError finished;
       trace := concat (map snd finished);
       unjoined := [] |}.
Proof.
  unfold sendFileToHosts, errgroup.Wait.
  now rewrite goroutines_started.
Qed.

Lemma WaitSSHReady_unfold (k : Runtime) (tryTimes : Z) (hosts : list IP) :
  WaitSSHReady k tryTimes hosts
  = let finished := finish (map (waitTask k tryTimes) hosts) in
    {| returned := errgroup.firstError finished;
       trace := concat (map snd finished);
       unjoined := [] |}.
Proof.
  unfold WaitSSHReady, errgroup.Wait.
  now rewrite goroutines_started.
Qed.

(** ** The claims *)

(** C9. [sendFileToHosts] returns after every per-host copy task has
    finished (no goroutine is left unjoined, and its trace is that of all
    the tasks, in the order they finished); it returns nil exactly when the
    copy succeeds on every host of the list; otherwise it returns the
    error of the first task that failed, in the order of completion, which
    is the task of a host whose copy failed. *)
Theorem sendFileToHosts_waits_and_reports (k : Runtime) (hosts : list IP)
  (src dst : string) :
  let o := sendFileToHosts k hosts src dst in
  let finished := finish (map (sendFileTask k src dst) hosts) in
  (unjoined o = []
   /\ Permutation finished (map (sendFileTask k src dst) hosts)
   /\ trace o = concat (map snd finished))
  /\ (returned o = None
      <-> forall node, In node hosts -> copySucceeds k src dst node = true)
  /\ (forall e, returned o = Some e ->
      exists before t after node,
        finished = before ++ t :: after
        /\ Forall (fun t' : Task => fst t' = None) before
        /\ fst t = Some e
        /\ In node hosts
        /\ copySucceeds k src dst node = false
        /\ t = sendFileTask k src dst node).
Proof.
  intros o finished. subst o.
  rewrite sendFileToHosts_unfold. fold finished. simpl.
  pose proof (finish_perm (map (sendFileTask k src dst) hosts)) as Hp.
  fold finished in Hp.
  split; [repeat split; assumption |].
  split.
  - rewrite firstError_nil_iff. split.
    + intros HF node Hin.
      apply sendFileTask_nil_iff.
      assert (Hall : Forall (fun t : Task => fst t = None)
                       (map (sendFileTask k src dst) hosts))
        by (eapply Permutation_Forall; eassumption).
      rewrite List.Forall_forall in Hall.
      apply Hall. now apply in_map.
    + intros Hall.
      eapply Permutation_Forall; [symmetry; exact Hp |].
      apply List.Forall_forall. intros t Ht.
      apply in_map_iff in Ht. destruct Ht as (node & <- & Hin).
      apply sendFileTask_nil_iff. now apply Hall.
  - intros e He.
    destruct (firstError_some _ _ He) as (before & t & after & Hf & Hb & Ht).
    assert (Hin : In t (map (sendFileTask k src dst) hosts)).
    { eapply Permutation_in; [exact Hp |].
      rewrite Hf. apply in_or_app. right. now left. }
    apply in_map_iff in Hin. destruct Hin as (node & Hn & Hin).
    exists before, t, after, node.
    repeat split; try assumption; [| now symmetry].
    destruct (copySucceeds k src dst node) eqn:Hc; [| reflexivity].
    apply sendFileTask_nil_iff in Hc. congruence.
Qed.

Lemma pingLoop_success (k : Runtime) (host : IP) (c : SSHInterface)
  (n : nat) :
  getHostSSHClient k host = inl c ->
  forall left i,
    (n < left)%nat ->
    (forall j, (j < n)%nat -> Ping c host (i + j) <> None) ->
    Ping c host (i + n) = None ->
    pingLoop k host left i = (None, failedPings host i n ++ [EvPing host]).
Proof.
  intros Hc.
  induction n as [|n IH]; intros left i Hlt Hfail Hok.
  - destruct left as [|left]; [lia |].
    simpl. rewrite Hc. rewrite Nat.add_0_r in Hok. now rewrite Hok.
  - destruct left as [|left]; [lia |].
    simpl. rewrite Hc.
    pose proof (Hfail 0%nat ltac:(lia)) as H0.
    rewrite Nat.add_0_r in H0.
    destruct (Ping c host i) as [e|]; [| congruence].
    rewrite (IH left (S i)); [reflexivity | lia | |].
    + intros j Hj. replace (S i + j)%nat with (i + S j)%nat by lia.
      apply Hfail. lia.
    + now replace (S i + n)%nat with (i + S n)%nat by lia.
Qed.

Lemma pingLoop_nil (k : Runtime) (host : IP) (c : SSHInterface) :
  getHostSSHClient k host = inl c ->
  forall left i n,
    (n < left)%nat ->
    Ping c host (i + n) = None ->
    fst (pingLoop k host left i) = None.
Proof.
  intros Hc.
  induction left as [|left IH]; intros i n Hlt Hok; [lia |].
  simpl. rewrite Hc.
  destruct (Ping c host i) as [e|] eqn:E; [| reflexivity].
  destruct n as [|n].
  - rewrite Nat.add_0_r in Hok. congruence.
  - specialize (IH (S i) n ltac:(lia)).
    replace (S i + n)%nat with (i + S n)%nat in IH by lia.
    specialize (IH Hok).
    destruct (pingLoop k host left (S i)) as [r events]. exact IH.
Qed.

Lemma waitTask_no_try (k : Runtime) (tryTimes : Z) (host : IP) :
  (tryTimes <= 0)%Z ->
  waitTask k tryTimes host = (timeoutError host, []).
Proof.
  intros H. unfold waitTask.
  replace (Z.to_nat tryTimes) with 0%nat by lia. reflexivity.
Qed.

Lemma concat_no_events (l : list Task) :
  (forall t, In t l -> snd t = []) -> concat (map snd l) = [].
Proof.
  induction l as [|t l IH]; intros H; simpl; [reflexivity |].
  rewrite (H t) by now left.
  apply IH. intros t' Ht'. apply H. now right.
Qed.

(** C10. The goroutine of a host returns nil at the first ping that
    succeeds within [tryTimes] attempts, without any further ping or
    sleep, so it returns nil whenever some ping within [tryTimes] attempts
    succeeds; when [tryTimes] is zero or negative the goroutine of every host
    returns the timeout error, a non-nil error whose text ["wait for [<host>]
    ssh ready timeout, ..."] names the host, without a single ping, so the call performs
    no event and, for a non-empty host list, returns the timeout error of
    one of the hosts.  [WaitSSHReady] returns the first error of the
    goroutines it has all waited for. *)
Theorem WaitSSHReady_ping_or_timeout (k : Runtime) (tryTimes : Z)
  (hosts : list IP) (host : IP) :
  (forall sshClient i,
      getHostSSHClient k host = inl sshClient ->
      (Z.of_nat i < tryTimes)%Z ->
      (forall j, (j < i)%nat -> Ping sshClient host j <> None) ->
      Ping sshClient host i = None ->
      waitTask k tryTimes host
      = (None, failedPings host 0 i ++ [EvPing host]))
  /\ (forall sshClient i,
         getHostSSHClient k host = inl sshClient ->
         (Z.of_nat i < tryTimes)%Z ->
         Ping sshClient host i = None ->
         fst (waitTask k tryTimes host) = None)
  /\ ((tryTimes <= 0)%Z ->
      waitTask k tryTimes host
      = (Some ("wait for [" +:+ IP_String host +:+
               "] ssh ready timeout, ensure that the IP address or password is correct"),
         [])
      /\ trace (WaitSSHReady k tryTimes hosts) = []
      /\ (hosts <> [] ->
          exists h, In h hosts
                    /\ returned (WaitSSHReady k tryTimes hosts)
                       = Some ("wait for [" +:+ IP_String h +:+
                               "] ssh ready timeout, ensure that the IP address or password is correct")))
  /\ (unjoined (WaitSSHReady k tryTimes hosts) = []
      /\ returned (WaitSSHReady k tryTimes hosts)
         = errgroup.firstError (finish (map (waitTask k tryTimes) hosts))).
Proof.
  split; [| split; [| split]].
  - intros c i Hc Hi Hfail Hok. unfold waitTask.
    apply (pingLoop_success k host c i Hc); [lia | exact Hfail | exact Hok].
  - intros c i Hc Hi Hok. unfold waitTask.
    apply (pingLoop_nil k host c Hc (Z.to_nat tryTimes) 0%nat i); [lia |].
    exact Hok.
  - intros Hle. split; [now apply waitTask_no_try |].
    rewrite WaitSSHReady_unfold. simpl.
    pose proof (finish_perm (map (waitTask k tryTimes) hosts)) as Hp.
    assert (Htask : forall t,
               In t (finish (map (waitTask k tryTimes) hosts)) ->
               exists h, In h hosts /\ t = (timeoutError h, [])).
    { intros t Ht. eapply Permutation_in in Ht; [| exact Hp].
      apply in_map_iff in Ht. destruct Ht as (h & <- & Hin).
      exists h. split; [exact Hin | now apply waitTask_no_try]. }
    split.
    + apply concat_no_events. intros t Ht.
      destruct (Htask t Ht) as (h & _ & ->). reflexivity.
    + intros Hne.
      destruct (finish (map (waitTask k tryTimes) hosts)) as [|t rest] eqn:E.
      * apply Permutation_nil in Hp.
        destruct hosts; [congruence | discriminate].
      * destruct (Htask t ltac:(now left)) as (h & Hin & ->).
        exists h. split; [exact Hin | reflexivity].
  - now rewrite WaitSSHReady_unfold.
Qed.

Lemma joinCertPath_worker : joinCertPath WorkerRole = DefaultK0sWorkerJoin.
Proof.
  unfold joinCertPath.
  destruct (String.eqb WorkerRole ControllerRole) eqn:E.
  - apply String.eqb_eq in E. now destruct roles_distinct.
  - now destruct (String.eqb WorkerRole WorkerRole).
Qed.

Lemma joinCertPath_other (role : string) :
  role <> ControllerRole -> joinCertPath role = DefaultK0sWorkerJoin.
Proof.
  intros Hc. unfold joinCertPath.
  destruct (String.eqb role ControllerRole) eqn:E.
  - apply String.eqb_eq in E. contradiction.
  - now destruct (String.eqb role WorkerRole).
Qed.

(** [CopyJoinToken] with a client for master0: nil is returned, nothing
    has been waited for, and one goroutine per host is left running. *)
Lemma CopyJoinToken_unfold (k : Runtime) (role : string) (hosts : list IP)
  (ssh : SSHInterface) :
  getHostSSHClient k (GetMaster0IP (cluster k)) = inl ssh ->
  CopyJoinToken k role hosts
  = {| returned := None; trace := [];
       unjoined := map (copyTokenTask ssh (joinCertPath role)) hosts |}.
Proof.
  intros H. unfold CopyJoinToken. rewrite H.
  now rewrite goroutines_started.
Qed.

(** C3 (amended). For a role other than controller and worker,
    [CopyJoinToken] behaves as for the worker role and copies the worker
    join-token path, while [JoinCommand], on a runtime with a registry
    configuration, returns the nil slice: no command at all. *)
Theorem unknown_role_token_path_and_no_commands (k : Runtime)
  (role : string) :
  role <> ControllerRole ->
  role <> WorkerRole ->
  (forall hosts,
      CopyJoinToken k role hosts = CopyJoinToken k WorkerRole hosts)
  /\ (forall hosts ssh,
         getHostSSHClient k (GetMaster0IP (cluster k)) = inl ssh ->
         unjoined (CopyJoinToken k role hosts)
         = map (copyTokenTask ssh DefaultK0sWorkerJoin) hosts)
  /\ (forall cfg, RegConfig k = Some cfg -> JoinCommand k role = Some []).
Proof.
  intros Hc Hw. split; [| split].
  - intros hosts. unfold CopyJoinToken.
    now rewrite joinCertPath_worker, (joinCertPath_other role Hc).
  - intros hosts ssh Hssh.
    rewrite (CopyJoinToken_unfold k role hosts ssh Hssh). simpl.
    now rewrite (joinCertPath_other role Hc).
  - intros cfg Hcfg. unfold JoinCommand. rewrite Hcfg.
    rewrite lookup_insert_ne by congruence.
    rewrite lookup_insert_ne by congruence.
    now rewrite lookup_empty.
Qed.

(** C6. On a runtime with a registry configuration, [JoinCommand] for the
    controller role returns, in this order, the commands that create the
    configuration, override the image repository with [Domain:Port] of the
    registry configuration, install the controller with the controller
    token file and the external container-runtime socket, and start the
    service; for the worker role, the commands that install the worker
    with the worker token file and the external socket and start the
    service. *)
Theorem JoinCommand_controller_and_worker (k : Runtime) (cfg : Config) :
  RegConfig k = Some cfg ->
  JoinCommand k ControllerRole
  = Some [ "mkdir -r /etc/k0s";
           "k0s config create > " +:+ DefaultK0sConfigPath;
           "sed -i '/  images/ a\    repository: " +:+ dquote +:+
             Domain cfg +:+ ":" +:+ Port cfg +:+ dquote +:+ "' " +:+
             DefaultK0sConfigPath;
           "k0s install controller --token-file " +:+
             DefaultK0sControllerJoin +:+ " -c " +:+ DefaultK0sConfigPath +:+
             " --cri-socket " +:+ ExternalCRI;
           "k0s start" ]
  /\ JoinCommand k WorkerRole
     = Some [ "k0s install worker --cri-socket " +:+ ExternalCRI +:+
                " --token-file " +:+ DefaultK0sWorkerJoin;
              "k0s start" ].
Proof.
  intros Hcfg. unfold JoinCommand. rewrite Hcfg. split.
  - rewrite lookup_insert_ne by congruence.
    now rewrite lookup_insert_eq.
  - now rewrite lookup_insert_eq.
Qed.

(** C4 (amended). When the version command succeeds on master0,
    [getKubeVersion] returns, with a nil error, the part of its output
    before the first ["+"], white space included: the result holds no
    ["+"], it is the whole output when the output holds no ["+"], and
    otherwise the output is the result followed by ["+"] and a rest. *)
Theorem getKubeVersion_cuts_at_plus (k : Runtime) (ssh : SSHInterface)
  (out : string) :
  getHostSSHClient k (GetMaster0IP (cluster k)) = inl ssh ->
  Cmd ssh (GetMaster0IP (cluster k)) VersionCmd = (out, None) ->
  exists v,
    fst (getKubeVersion k) = (v, None)
    /\ contains v "+"%char = false
    /\ (contains out "+"%char = false -> v = out)
    /\ (contains out "+"%char = true ->
        exists rest, out = v +:+ String "+"%char rest).
Proof.
  intros Hssh Hcmd.
  exists (nth 0 (Split out "+"%char) EmptyString).
  split.
  - unfold getKubeVersion. rewrite Hssh, Hcmd. reflexivity.
  - apply Split_head.
Qed.

(** C8. [GetClusterMetadata] performs the version read and nothing else;
    when the read succeeds it returns, with a nil error, metadata whose
    [Version] is the version read and whose [ClusterRuntime] is
    [RuntimeFlag]; when the read fails it returns that error with the
    zero metadata, whose [Version] is unset. *)
Theorem GetClusterMetadata_version_and_flag (k : Runtime) :
  snd (GetClusterMetadata k) = snd (getKubeVersion k)
  /\ (forall version,
         fst (getKubeVersion k) = (version, None) ->
         fst (GetClusterMetadata k)
         = ({| Version := version; ClusterRuntime := RuntimeFlag |}, None))
  /\ (forall v err,
         fst (getKubeVersion k) = (v, Some err) ->
         fst (GetClusterMetadata k) = (Metadata_zero, Some err)
         /\ Version (fst (fst (GetClusterMetadata k))) = EmptyString).
Proof.
  unfold GetClusterMetadata, getClusterMetadata, bind.
  destruct (getKubeVersion k) as [[v [e|]] t]; simpl.
  - split; [now rewrite app_nil_r |].
    split; [intros ? [=] | intros ? ? [= -> ->]; now split].
  - split; [now rewrite app_nil_r |].
    split; [intros ? [= ->]; reflexivity | intros ? ? [=]].
Qed.

Lemma checkList_cluster (k k' : Runtime) :
  cluster k = cluster k' -> checkList k = checkList k'.
Proof. intros H. unfold checkList. now rewrite H. Qed.

(** C5. Construction of the runtime fails with an error and without any
    remote event whenever the host list of the cluster is empty or master0
    has no address; for a cluster with a non-empty host list and a master0
    address the check passes. *)
Theorem NewK0sRuntime_checks_hosts_and_master0 (c : Cluster) :
  ((Hosts (Spec c) = [] \/ GetMaster0IP c = None) ->
   exists err, NewK0sRuntime c = ((None, Some err), []))
  /\ (Hosts (Spec c) <> [] ->
      GetMaster0IP c <> None ->
      forall k, cluster k = c -> checkList k = None).
Proof.
  split.
  - intros H. unfold NewK0sRuntime, newK0sRuntime. cbn [cluster Vlog].
    match goal with
    | |- context [checkList ?r] => destruct (checkList r) as [err|] eqn:E
    end.
    + now exists err.
    + apply checkList_nil_iff in E. cbn [cluster] in E.
      destruct E as [E1 E2]. destruct H; contradiction.
  - intros Hh Hm k <-. apply checkList_nil_iff. now split.
Qed.

(** C2. For a cluster that passes the check of hosts and master0,
    [NewK0sRuntime] returns a nil installer together with a nil error, and
    performs no remote event. *)
Theorem NewK0sRuntime_returns_nil_installer (k : Runtime) :
  checkList k = None ->
  NewK0sRuntime (cluster k) = ((None, None), []).
Proof.
  intros H. unfold NewK0sRuntime, newK0sRuntime. cbn [cluster Vlog].
  match goal with
  | |- context [checkList ?r] =>
      rewrite (checkList_cluster r k) by reflexivity
  end.
  now rewrite H.
Qed.

(** C7. Called with an empty address list, [JoinMasters] and [JoinNodes]
    return nil and perform no event: nothing is logged and no remote
    command is issued. *)
Theorem JoinMasters_JoinNodes_empty (k : Runtime) :
  JoinMasters k [] = (None, []) /\ JoinNodes k [] = (None, []).
Proof. split; reflexivity. Qed.

(** ** Further properties of the runtime *)

Lemma pingLoop_nil_inv (k : Runtime) (host : IP) :
  forall left i,
    fst (pingLoop k host left i) = None ->
    exists c n,
      getHostSSHClient k host = inl c
      /\ (n < left)%nat
      /\ Ping c host (i + n) = None.
Proof.
  induction left as [|left IH]; intros i H; simpl in H; [discriminate |].
  destruct (getHostSSHClient k host) as [c|err] eqn:Hc; [| discriminate].
  destruct (Ping c host i) as [e|] eqn:E.
  - destruct (pingLoop k host left (S i)) as [r events] eqn:Hl.
    simpl in H. subst r.
    destruct (IH (S i)) as (c' & n & Hc' & Hn & Hp).
    { now rewrite Hl. }
    inversion Hc'; subst c'.
    exists c, (S n). repeat split; [lia |].
    now replace (i + S n)%nat with (S i + n)%nat by lia.
  - exists c, 0%nat. repeat split; [lia |].
    now rewrite Nat.add_0_r.
Qed.

Lemma waitTask_nil_iff (k : Runtime) (tryTimes : Z) (host : IP) :
  fst (waitTask k tryTimes host) = None
  <-> exists c i,
      getHostSSHClient k host = inl c
      /\ (Z.of_nat i < tryTimes)%Z
      /\ Ping c host i = None.
Proof.
  unfold waitTask. split.
  - intros H. apply pingLoop_nil_inv in H.
    destruct H as (c & n & Hc & Hn & Hp).
    exists c, n. repeat split; [exact Hc | lia | exact Hp].
  - intros (c & i & Hc & Hi & Hp).
    apply (pingLoop_nil k host c Hc (Z.to_nat tryTimes) 0%nat i); [lia |].
    exact Hp.
Qed.

(** X1. [WaitSSHReady] returns nil exactly when, for every host of the
    list, a client is obtained and one of the first [tryTimes] pings of that
    host succeeds; this holds whatever the order in which the goroutines
    finish. *)
Theorem WaitSSHReady_nil_iff (k : Runtime) (tryTimes : Z) (hosts : list IP) :
  returned (WaitSSHReady k tryTimes hosts) = None
  <-> forall host, In host hosts ->
      exists c i,
        getHostSSHClient k host = inl c
        /\ (Z.of_nat i < tryTimes)%Z
        /\ Ping c host i = None.
Proof.
  rewrite WaitSSHReady_unfold. simpl.
  pose proof (finish_perm (map (waitTask k tryTimes) hosts)) as Hp.
  rewrite firstError_nil_iff. split.
  - intros HF host Hin. apply waitTask_nil_iff.
    assert (Hall : Forall (fun t : Task => fst t = None)
                     (map (waitTask k tryTimes) hosts))
      by (eapply Permutation_Forall; eassumption).
    rewrite List.Forall_forall in Hall.
    apply Hall. now apply in_map.
  - intros Hall.
    eapply Permutation_Forall; [symmetry; exact Hp |].
    apply List.Forall_forall. intros t Ht.
    apply in_map_iff in Ht. destruct Ht as (host & <- & Hin).
    apply waitTask_nil_iff. now apply Hall.
Qed.

Lemma pingLoop_exhausted (k : Runtime) (host : IP) (c : SSHInterface) :
  getHostSSHClient k host = inl c ->
  forall left i,
    (forall j, (j < left)%nat -> Ping c host (i + j) <> None) ->
    pingLoop k host left i = (timeoutError host, failedPings host i left).
Proof.
  intros Hc.
  induction left as [|left IH]; intros i Hfail; simpl; [reflexivity |].
  rewrite Hc.
  pose proof (Hfail 0%nat ltac:(lia)) as H0.
  rewrite Nat.add_0_r in H0.
  destruct (Ping c host i) as [e|]; [| congruence].
  rewrite (IH (S i)); [reflexivity |].
  intros j Hj. replace (S i + j)%nat with (i + S j)%nat by lia.
  apply Hfail. lia.
Qed.

Lemma pings_failedPings (host : IP) (n : nat) :
  forall i, pings (failedPings host i n) = n.
Proof.
  unfold pings.
  induction n as [|n IH]; intros i; simpl; [reflexivity |].
  f_equal. apply IH.
Qed.

(** X2. The two ways the goroutine of a host fails.  When no client is
    obtained for the host and [tryTimes] is positive, it returns the error
    of the client, unwrapped, without a ping.  When a client is obtained and
    each of the first [tryTimes] pings fails, it returns the non-nil error
    ["wait for [<host>] ssh ready timeout, ensure that the IP address or
    password is correct"], after exactly [tryTimes] pings, the ping with
    counter [i] being followed by a sleep of [i] seconds. *)
Theorem WaitSSHReady_failure_modes (k : Runtime) (tryTimes : Z) (host : IP) :
  (forall err,
      getHostSSHClient k host = inr err ->
      (0 < tryTimes)%Z ->
      waitTask k tryTimes host = (Some err, []))
  /\ (forall c,
         getHostSSHClient k host = inl c ->
         (forall i, (Z.of_nat i < tryTimes)%Z -> Ping c host i <> None) ->
         waitTask k tryTimes host
         = (Some ("wait for [" +:+ IP_String host +:+
                  "] ssh ready timeout, ensure that the IP address or password is correct"),
            failedPings host 0 (Z.to_nat tryTimes))
         /\ pings (snd (waitTask k tryTimes host)) = Z.to_nat tryTimes).
Proof.
  split.
  - intros err Hc Hpos. unfold waitTask.
    destruct (Z.to_nat tryTimes) as [|n] eqn:E; [lia |].
    simpl. now rewrite Hc.
  - intros c Hc Hfail.
    assert (Heq : waitTask k tryTimes host
                  = (timeoutError host,
                     failedPings host 0 (Z.to_nat tryTimes))).
    { unfold waitTask. apply (pingLoop_exhausted k host c Hc).
      intros j Hj. apply Hfail. simpl. lia. }
    split; [exact Heq |].
    rewrite Heq. simpl. apply pings_failedPings.
Qed.

Lemma pingLoop_bounds (k : Runtime) (host : IP) :
  forall left i,
    (pings (snd (pingLoop k host left i)) <= left)%nat
    /\ Forall (fun e => e = EvPing host
                        \/ exists s, e = EvSleep (Z.of_nat s)
                                     /\ (i <= s < i + left)%nat)
         (snd (pingLoop k host left i)).
Proof.
  induction left as [|left IH]; intros i; simpl.
  - split; [unfold pings; simpl; lia | constructor].
  - destruct (getHostSSHClient k host) as [c|err]; simpl.
    + destruct (Ping c host i) as [e|]; simpl.
      * destruct (IH (S i)) as [IH1 IH2].
        destruct (pingLoop k host left (S i)) as [r events]. simpl in *.
        split.
        -- unfold pings in *. simpl. lia.
        -- constructor; [now left |].
           constructor; [right; exists i; split; [reflexivity | lia] |].
           eapply List.Forall_impl; [| exact IH2].
           intros e' [He | (s & He & Hs)]; [now left |].
           right. exists s. split; [exact He | lia].
      * split; [unfold pings; simpl; lia |].
        constructor; [now left | constructor].
    + split; [unfold pings; simpl; lia | constructor].
Qed.

Lemma pings_app (l1 l2 : list Event) :
  pings (l1 ++ l2) = (pings l1 + pings l2)%nat.
Proof.
  unfold pings. now rewrite List.filter_app, length_app.
Qed.

Lemma pings_concat_bound (n : nat) (l : list Task) :
  (forall t, In t l -> (pings (snd t) <= n)%nat) ->
  (pings (concat (map snd l)) <= length l * n)%nat.
Proof.
  induction l as [|t l IH]; intros H; simpl.
  - unfold pings. simpl. lia.
  - rewrite pings_app.
    pose proof (H t ltac:(now left)).
    pose proof (IH ltac:(intros t' Ht'; apply H; now right)).
    lia.
Qed.

Lemma events_perm (l l' : list Task) :
  Permutation l l' ->
  Permutation (concat (map snd l)) (concat (map snd l')).
Proof.
  induction 1 as [| t l l' _ IH | t t' l | l l' l'' _ IH1 _ IH2]; simpl.
  - constructor.
  - now apply Permutation_app_head.
  - rewrite !app_assoc. apply Permutation_app_tail.
    apply Permutation_app_comm.
  - now transitivity (concat (map snd l')).
Qed.

Lemma IP_eqb_eq (a b : IP) : IP_eqb a b = true <-> a = b.
Proof.
  destruct a as [x|], b as [y|]; simpl; split; try congruence.
  - intros H. apply String.eqb_eq in H. now subst.
  - intros [= ->]. apply String.eqb_refl.
Qed.

Lemma pingsOf_app (host : IP) (l1 l2 : list Event) :
  pingsOf host (l1 ++ l2) = (pingsOf host l1 + pingsOf host l2)%nat.
Proof.
  unfold pingsOf. now rewrite List.filter_app, length_app.
Qed.

Lemma pingsOf_perm (host : IP) (l l' : list Event) :
  Permutation l l' -> pingsOf host l = pingsOf host l'.
Proof.
  unfold pingsOf.
  induction 1 as [| e l l' _ IH | e e' l | l l' l'' _ IH1 _ IH2]; simpl.
  - reflexivity.
  - destruct (isPingOf host e); simpl; now rewrite IH.
  - now destruct (isPingOf host e), (isPingOf host e').
  - now rewrite IH1.
Qed.

(** The goroutine of [h] pings [h] only: it pings [host] at most [left]
    times when [host] is [h], and never otherwise. *)
Lemma pingLoop_pingsOf (k : Runtime) (host h : IP) :
  forall left i,
    (pingsOf host (snd (pingLoop k h left i))
     <= if IP_eqb host h then left else 0)%nat.
Proof.
  induction left as [|left IH]; intros i; simpl.
  - unfold pingsOf. simpl. destruct (IP_eqb host h); lia.
  - destruct (getHostSSHClient k h) as [c|err]; simpl.
    + destruct (Ping c h i) as [e|]; simpl.
      * specialize (IH (S i)).
        destruct (pingLoop k h left (S i)) as [r events]. simpl in *.
        unfold pingsOf in *. simpl.
        destruct (IP_eqb host h); simpl; lia.
      * unfold pingsOf. simpl. destruct (IP_eqb host h); simpl; lia.
    + unfold pingsOf. simpl. destruct (IP_eqb host h); lia.
Qed.

Lemma waitTasks_pingsOf (k : Runtime) (n : nat) (host : IP)
  (hosts : list IP) :
  (pingsOf host
     (concat (map snd (map (fun h => pingLoop k h n 0) hosts)))
   <= occurrences host hosts * n)%nat.
Proof.
  unfold occurrences.
  induction hosts as [|h hosts IH]; simpl.
  - unfold pingsOf. simpl. lia.
  - rewrite pingsOf_app.
    pose proof (pingLoop_pingsOf k host h n 0) as Hh.
    destruct (IP_eqb host h); simpl; lia.
Qed.

Lemma occurrences_NoDup (host : IP) (hosts : list IP) :
  List.NoDup hosts -> (occurrences host hosts <= 1)%nat.
Proof.
  unfold occurrences.
  induction 1 as [|h hosts Hnotin _ IH]; simpl; [lia |].
  destruct (IP_eqb host h) eqn:E; [| exact IH].
  apply IP_eqb_eq in E. subst h. simpl.
  assert (Hnone : List.filter (IP_eqb host) hosts = []).
  { clear IH. induction hosts as [|h' hosts IH']; simpl; [reflexivity |].
    destruct (IP_eqb host h') eqn:E'.
    - apply IP_eqb_eq in E'. subst h'.
      exfalso. apply Hnotin. now left.
    - apply IH'. intros Hin. apply Hnotin. now right. }
  rewrite Hnone. simpl. lia.
Qed.

(** X3. The bound on the pings of [WaitSSHReady].  The goroutine started
    for one entry of the list performs only pings of its host and sleeps of
    less than [tryTimes] seconds, and at most [max tryTimes 0] pings; the
    call as a whole performs at most that number of pings per entry of the
    list.  A host is pinged at most [max tryTimes 0] times for each time it
    is listed, hence at most [max tryTimes 0] times when the list holds no
    address twice; the list is not de-duplicated, so a host listed twice
    may be pinged twice as often. *)
Theorem WaitSSHReady_ping_bound (k : Runtime) (tryTimes : Z)
  (hosts : list IP) (host : IP) :
  (pings (snd (waitTask k tryTimes host)) <= Z.to_nat tryTimes)%nat
  /\ Forall (fun e => e = EvPing host
                      \/ exists s, e = EvSleep s /\ (0 <= s < tryTimes)%Z)
       (snd (waitTask k tryTimes host))
  /\ (pings (trace (WaitSSHReady k tryTimes hosts))
      <= length hosts * Z.to_nat tryTimes)%nat
  /\ (pingsOf host (trace (WaitSSHReady k tryTimes hosts))
      <= occurrences host hosts * Z.to_nat tryTimes)%nat
  /\ (List.NoDup hosts ->
      (pingsOf host (trace (WaitSSHReady k tryTimes hosts))
       <= Z.to_nat tryTimes)%nat).
Proof.
  assert (Hocc : (pingsOf host (trace (WaitSSHReady k tryTimes hosts))
                  <= occurrences host hosts * Z.to_nat tryTimes)%nat).
  { rewrite WaitSSHReady_unfold. simpl.
    pose proof (finish_perm (map (waitTask k tryTimes) hosts)) as Hp.
    rewrite (pingsOf_perm host _ _ (events_perm _ _ Hp)).
    apply waitTasks_pingsOf. }
  split; [| split; [| split; [| split]]].
  - apply pingLoop_bounds.
  - unfold waitTask.
    eapply List.Forall_impl;
      [| apply (pingLoop_bounds k host (Z.to_nat tryTimes) 0%nat)].
    intros e [He | (s & He & Hs)]; [now left |].
    right. exists (Z.of_nat s). split; [exact He | lia].
  - rewrite WaitSSHReady_unfold. simpl.
    pose proof (finish_perm (map (waitTask k tryTimes) hosts)) as Hp.
    rewrite <- (length_map (waitTask k tryTimes) hosts).
    rewrite <- (Permutation_length Hp).
    apply pings_concat_bound.
    intros t Ht. eapply Permutation_in in Ht; [| exact Hp].
    apply in_map_iff in Ht. destruct Ht as (h & <- & _).
    apply pingLoop_bounds.
  - exact Hocc.
  - intros Hnd. pose proof (occurrences_NoDup host hosts Hnd) as H1.
    nia.
Qed.

Lemma sendFile_events (k : Runtime) (src dst : string) (hosts : list IP) :
  concat (map snd (map (sendFileTask k src dst) hosts))
  = map (fun node => EvCopy node src dst) (List.filter (hasClient k) hosts).
Proof.
  induction hosts as [|node hosts IH]; simpl; [reflexivity |].
  rewrite IH. unfold sendFileTask, hasClient.
  destruct (getHostSSHClient k node) as [c|err]; simpl; [| reflexivity].
  now destruct (Copy c node src dst).
Qed.

(** X4. What [sendFileToHosts] does and reports.  It attempts exactly one
    copy of [src] to [dst] for each host of the list for which a client is
    obtained, nothing else, and never retries.  An error it returns is the
    text ["failed to send file: "] followed by the error of the client or of
    the copy of one host of the list. *)
Theorem sendFileToHosts_copies_and_error_text (k : Runtime)
  (hosts : list IP) (src dst : string) :
  Permutation (trace (sendFileToHosts k hosts src dst))
    (map (fun node => EvCopy node src dst) (List.filter (hasClient k) hosts))
  /\ (length (trace (sendFileToHosts k hosts src dst)) <= length hosts)%nat
  /\ (forall e,
         returned (sendFileToHosts k hosts src dst) = Some e ->
         exists node cause,
           In node hosts
           /\ e = "failed to send file: " +:+ cause
           /\ (getHostSSHClient k node = inr cause
               \/ exists c, getHostSSHClient k node = inl c
                            /\ Copy c node src dst = Some cause)).
Proof.
  rewrite sendFileToHosts_unfold. simpl.
  pose proof (finish_perm (map (sendFileTask k src dst) hosts)) as Hp.
  assert (Htr : Permutation
                  (concat (map snd (finish (map (sendFileTask k src dst)
                                              hosts))))
                  (map (fun node => EvCopy node src dst)
                     (List.filter (hasClient k) hosts))).
  { rewrite <- sendFile_events. now apply events_perm. }
  split; [exact Htr |]. split.
  - rewrite (Permutation_length Htr), length_map.
    apply List.filter_length_le.
  - intros e He.
    destruct (firstError_some _ _ He) as (before & t & after & Hf & _ & Ht).
    assert (Hin : In t (map (sendFileTask k src dst) hosts)).
    { eapply Permutation_in; [exact Hp |].
      rewrite Hf. apply in_or_app. right. now left. }
    apply in_map_iff in Hin. destruct Hin as (node & <- & Hin).
    unfold sendFileTask, Errorf_v in Ht.
    destruct (getHostSSHClient k node) as [c|err] eqn:Hc.
    + destruct (Copy c node src dst) as [cause|] eqn:Hcopy;
        simpl in Ht; [| discriminate].
      injection Ht as <-.
      exists node, cause. repeat split; [exact Hin |].
      right. now exists c.
    + simpl in Ht. injection Ht as <-.
      exists node, err. repeat split; [exact Hin |]. now left.
Qed.

(** X5. The two outcomes of [CopyJoinToken].  When no client is obtained
    for master0 it returns the error of the client and starts no goroutine.
    Otherwise it starts one goroutine per host, in the order of the list;
    each copies, through the client of master0, the join-token file to the
    same path on its host: the controller path for the controller role, the
    worker path for every other role. *)
Theorem CopyJoinToken_goroutines (k : Runtime) (role : string)
  (hosts : list IP) :
  (forall err,
      getHostSSHClient k (GetMaster0IP (cluster k)) = inr err ->
      CopyJoinToken k role hosts
      = {| returned := Some err; trace := []; unjoined := [] |})
  /\ (forall ssh,
         getHostSSHClient k (GetMaster0IP (cluster k)) = inl ssh ->
         let path := if String.eqb role ControllerRole
                     then DefaultK0sControllerJoin
                     else DefaultK0sWorkerJoin in
         unjoined (CopyJoinToken k role hosts)
         = map (fun host => (Copy ssh host path path,
                             [EvCopy host path path])) hosts).
Proof.
  split.
  - intros err H. unfold CopyJoinToken. now rewrite H.
  - intros ssh H path.
    rewrite (CopyJoinToken_unfold k role hosts ssh H). simpl.
    unfold copyTokenTask, joinCertPath. subst path.
    destruct (String.eqb role ControllerRole); [reflexivity |].
    now destruct (String.eqb role WorkerRole).
Qed.

(** X6. The shape of the result of [JoinCommand].  Without a registry
    configuration it panics for every role, the worker role included.  With
    one, the sequence it returns is empty exactly for the roles other than
    controller and worker, has at most five commands, and, when not empty,
    ends with the start of the service. *)
Theorem JoinCommand_shape (k : Runtime) (role : string) :
  match RegConfig k with
  | None => JoinCommand k role = None
  | Some _ =>
      exists cmds,
        JoinCommand k role = Some cmds
        /\ (cmds = [] <-> role <> ControllerRole /\ role <> WorkerRole)
        /\ (length cmds <= 5)%nat
        /\ (cmds <> [] -> List.last cmds EmptyString = "k0s start")
  end.
Proof.
  unfold JoinCommand.
  destruct (RegConfig k) as [cfg|]; [| reflexivity].
  destruct (String.eqb_spec role WorkerRole) as [-> | Hw].
  - rewrite lookup_insert_eq. eexists. split; [reflexivity |].
    split; [| split; [simpl; lia | reflexivity]].
    split; [discriminate | intros [_ H]; congruence].
  - rewrite lookup_insert_ne by congruence.
    destruct (String.eqb_spec role ControllerRole) as [-> | Hc].
    + rewrite lookup_insert_eq. eexists. split; [reflexivity |].
      split; [| split; [simpl; lia | reflexivity]].
      split; [discriminate | intros [H _]; congruence].
    + rewrite lookup_insert_ne by congruence. rewrite lookup_empty.
      eexists. split; [reflexivity |].
      split; [| split; [simpl; lia | congruence]].
      split; [now split | reflexivity].
Qed.

(** X7. For every cluster [NewK0sRuntime] returns a nil installer and
    performs no event, whether or not it returns an error.  The error is
    ["hosts spec cannot be empty"] when the host list is empty, whatever the
    master0 address; otherwise ["master0 IP cannot be empty"] when master0
    has no address; otherwise nil.  Neither the registry configuration read
    nor the log level changes the result. *)
Theorem NewK0sRuntime_result (c : Cluster) :
  NewK0sRuntime c
  = ((None,
      match Hosts (Spec c) with
      | [] => Some "hosts spec cannot be empty"
      | _ :: _ =>
          match GetMaster0IP c with
          | None => Some "master0 IP cannot be empty"
          | Some _ => None
          end
      end), []).
Proof.
  unfold NewK0sRuntime, newK0sRuntime, checkList. cbn [cluster Vlog].
  destruct (Hosts (Spec c)) as [|h hs]; simpl; [reflexivity |].
  now destruct (GetMaster0IP c).
Qed.

(** X8. The version read runs at most one command, the version command on
    master0, and runs it exactly when a client is obtained for master0.  Its
    error is the error of the client, or else that of the command, and the
    version is empty whenever the error is not nil. *)
Theorem getKubeVersion_command_and_errors (k : Runtime) :
  let master0 := GetMaster0IP (cluster k) in
  let r := getKubeVersion k in
  (snd r = if hasClient k master0 then [EvCmd master0 VersionCmd] else [])
  /\ (snd (fst r) <> None -> fst (fst r) = EmptyString)
  /\ (forall err, getHostSSHClient k master0 = inr err ->
                  snd (fst r) = Some err)
  /\ (forall ssh, getHostSSHClient k master0 = inl ssh ->
                  snd (fst r) = snd (Cmd ssh master0 VersionCmd)).
Proof.
  intros master0 r. subst r master0.
  unfold getKubeVersion, hasClient.
  destruct (getHostSSHClient k (GetMaster0IP (cluster k))) as [ssh|err].
  - destruct (Cmd ssh (GetMaster0IP (cluster k)) VersionCmd) as [out [e|]]
      eqn:Hcmd; simpl.
    + split; [reflexivity |]. split; [reflexivity |].
      split; [intros ? [=] | intros ? [= <-]; now rewrite Hcmd].
    + split; [reflexivity |]. split; [congruence |].
      split; [intros ? [=] | intros ? [= <-]; now rewrite Hcmd].
  - simpl. split; [reflexivity |]. split; [reflexivity |].
    split; [now intros ? [= <-] | intros ? [=]].
Qed.

(** X9. The version [GetClusterMetadata] stores never holds a ["+"]: when
    it returns a nil error, the [Version] of the metadata is the output of
    the version command on master0 up to its first ["+"], and
    [ClusterRuntime] is the runtime flag; when it returns an error, the
    metadata is the zero value. *)
Theorem GetClusterMetadata_version_without_build_suffix (k : Runtime)
  (meta : Metadata) :
  (fst (GetClusterMetadata k) = (meta, None) ->
   contains (Version meta) "+"%char = false
   /\ ClusterRuntime meta = RuntimeFlag
   /\ exists ssh out,
       getHostSSHClient k (GetMaster0IP (cluster k)) = inl ssh
       /\ Cmd ssh (GetMaster0IP (cluster k)) VersionCmd = (out, None)
       /\ (out = Version meta
           \/ exists rest, out = Version meta +:+ String "+"%char rest))
  /\ (forall e, fst (GetClusterMetadata k) = (meta, Some e) ->
                meta = Metadata_zero).
Proof.
  unfold GetClusterMetadata, getClusterMetadata, bind, getKubeVersion.
  destruct (getHostSSHClient k (GetMaster0IP (cluster k))) as [ssh|err];
    simpl.
  - destruct (Cmd ssh (GetMaster0IP (cluster k)) VersionCmd)
      as [out [e|]] eqn:Hcmd; simpl.
    + split; [discriminate | now intros ? [= <- _]].
    + split; [| intros ? [=]].
      intros [= <-]. simpl.
      destruct (Split_head out "+"%char) as (H1 & H2 & H3).
      split; [exact H1 |]. split; [reflexivity |].
      exists ssh, out. split; [reflexivity |]. split; [exact Hcmd |].
      destruct (contains out "+"%char) eqn:Hc.
      * right. now apply H3.
      * left. symmetry. now apply H2.
  - split; [discriminate | now intros ? [= <- _]].
Qed.

(** X10. [DeleteMasters] and [DeleteNodes] on an empty list return nil
    without calling the removal and without any event; on a non-empty list
    they log one line, then perform the removal and return its error
    unchanged. *)
Theorem DeleteMasters_DeleteNodes_guard (k : Runtime) (ips : list IP) :
  DeleteMasters k [] = (None, [])
  /\ DeleteNodes k [] = (None, [])
  /\ (ips <> [] ->
      DeleteMasters k ips
      = (fst (deleteMasters k ips),
         EvInfo "master %s will be deleted" ips :: snd (deleteMasters k ips))
      /\ DeleteNodes k ips
         = (fst (deleteNodes k ips),
            EvInfo "worker %s will be deleted" ips
              :: snd (deleteNodes k ips))).
Proof.
  split; [reflexivity |]. split; [reflexivity |].
  intros Hne. unfold DeleteMasters, DeleteNodes, bind, emit.
  destruct ips as [|ip ips]; [congruence |]. simpl.
  destruct (deleteMasters k (ip :: ips)) as [r1 t1].
  destruct (deleteNodes k (ip :: ips)) as [r2 t2]. now split.
Qed.

Lemma finish_nil : finish [] = [].
Proof. apply Permutation_nil. symmetry. apply finish_perm. Qed.

(** X11. The fan-out functions on an empty host list.  [sendFileToHosts]
    and [WaitSSHReady] return nil without any event and without asking for a
    client, whatever the runtime and [tryTimes].  [CopyJoinToken] starts no
    goroutine, yet is no no-op: it still asks for the client of master0 and
    returns its error when there is none. *)
Theorem fan_out_on_empty_host_list (k : Runtime) (src dst role : string)
  (tryTimes : Z) :
  sendFileToHosts k [] src dst
  = {| returned := None; trace := []; unjoined := [] |}
  /\ WaitSSHReady k tryTimes []
     = {| returned := None; trace := []; unjoined := [] |}
  /\ unjoined (CopyJoinToken k role []) = []
  /\ (forall err,
         getHostSSHClient k (GetMaster0IP (cluster k)) = inr err ->
         returned (CopyJoinToken k role []) = Some err).
Proof.
  split; [| split; [| split]].
  - rewrite sendFileToHosts_unfold. simpl. now rewrite finish_nil.
  - rewrite WaitSSHReady_unfold. simpl. now rewrite finish_nil.
  - unfold CopyJoinToken.
    now destruct (getHostSSHClient k (GetMaster0IP (cluster k))).
  - intros err H. unfold CopyJoinToken. now rewrite H.
Qed.

End K0s.

(** ** The runtime on the sample cluster *)

Lemma rev_finish_perm (l : list Task) : Permutation (rev l) l.
Proof. symmetry. apply Permutation_rev. Qed.

Lemma demo_roles_distinct : demoControllerRole <> demoWorkerRole.
Proof. discriminate. Qed.

(** C1. On the sample cluster, with the copy to [10.0.0.3] failing,
    [CopyJoinToken] returns nil although it has waited for none of the two
    copies: both goroutines are still unjoined when it returns, and the
    error of the second one is lost. *)
Theorem CopyJoinToken_returns_nil_on_failed_copy :
  let o := CopyJoinToken demoWorkerJoin demoControllerJoin demoWorkerRole
             demoControllerRole (demoClient demoSSH) demoRuntime
             demoWorkerRole [worker2; worker3] in
  returned o = None
  /\ trace o = []
  /\ unjoined o
     = [ (None, [EvCopy worker2 demoWorkerJoin demoWorkerJoin]);
         (Some "dial tcp 10.0.0.3:22: i/o timeout",
          [EvCopy worker3 demoWorkerJoin demoWorkerJoin]) ].
Proof. vm_compute. repeat split. Qed.

(** C3, as stated, fails: ["etcd"] is neither the controller nor the worker
    role, and for it [JoinCommand] returns the nil slice, not the command
    sequence of the worker role. *)
Lemma JoinCommand_unknown_role_is_not_worker :
  "etcd" <> demoControllerRole
  /\ "etcd" <> demoWorkerRole
  /\ JoinCommand demoExternalCRI demoConfigPath demoWorkerJoin
       demoControllerJoin demoWorkerRole demoControllerRole demoRuntime "etcd"
     = Some []
  /\ JoinCommand demoExternalCRI demoConfigPath demoWorkerJoin
       demoControllerJoin demoWorkerRole demoControllerRole demoRuntime "etcd"
     <> JoinCommand demoExternalCRI demoConfigPath demoWorkerJoin
          demoControllerJoin demoWorkerRole demoControllerRole demoRuntime
          demoWorkerRole.
Proof.
  split; [discriminate |]. split; [discriminate |].
  split; [vm_compute; reflexivity |].
  vm_compute. discriminate.
Qed.

Lemma unknown_role_token_path_and_no_commands_witness :
  CopyJoinToken demoWorkerJoin demoControllerJoin demoWorkerRole
    demoControllerRole (demoClient demoSSH) demoRuntime "etcd" [worker2]
  = CopyJoinToken demoWorkerJoin demoControllerJoin demoWorkerRole
      demoControllerRole (demoClient demoSSH) demoRuntime demoWorkerRole
      [worker2]
  /\ unjoined
       (CopyJoinToken demoWorkerJoin demoControllerJoin demoWorkerRole
          demoControllerRole (demoClient demoSSH) demoRuntime "etcd" [worker2])
     = [copyTokenTask demoSSH demoWorkerJoin worker2]
  /\ JoinCommand demoExternalCRI demoConfigPath demoWorkerJoin
       demoControllerJoin demoWorkerRole demoControllerRole demoRuntime "etcd"
     = Some [].
Proof.
  destruct (unknown_role_token_path_and_no_commands
              demoExternalCRI demoConfigPath demoWorkerJoin demoControllerJoin
              demoWorkerRole demoControllerRole demo_roles_distinct
              (demoClient demoSSH) demoRuntime "etcd"
              ltac:(discriminate) ltac:(discriminate)) as (H1 & H2 & H3).
  split; [apply H1 |].
  split; [apply (H2 [worker2] demoSSH); reflexivity |].
  apply (H3 demoRegistry). reflexivity.
Defined.

(** C4, as stated, fails: when the version command prints ["v1.23.3"] and a
    line feed, an output without ["+"], [getKubeVersion] returns the output
    with its line feed, which is not the trimmed output. *)
Lemma getKubeVersion_does_not_trim :
  let out := "v1.23.3" +:+ LF in
  Cmd plainSSH master1 demoVersionCmd = (out, None)
  /\ contains out "+"%char = false
  /\ TrimSpace out = "v1.23.3"
  /\ fst (getKubeVersion demoVersionCmd (demoClient plainSSH) demoRuntime)
     = (out, None)
  /\ fst (getKubeVersion demoVersionCmd (demoClient plainSSH) demoRuntime)
     <> (TrimSpace out, None).
Proof.
  split; [reflexivity |]. split; [reflexivity |]. split; [reflexivity |].
  split; [reflexivity |].
  vm_compute. discriminate.
Qed.

Lemma getKubeVersion_cuts_at_plus_witness :
  exists v,
    fst (getKubeVersion demoVersionCmd (demoClient demoSSH) demoRuntime)
    = (v, None)
    /\ contains v "+"%char = false
    /\ (contains ("v1.23.3+k0s.0" +:+ LF) "+"%char = false ->
        v = "v1.23.3+k0s.0" +:+ LF)
    /\ (contains ("v1.23.3+k0s.0" +:+ LF) "+"%char = true ->
        exists rest, "v1.23.3+k0s.0" +:+ LF = v +:+ String "+"%char rest).
Proof.
  apply (getKubeVersion_cuts_at_plus demoVersionCmd (demoClient demoSSH)
           demoRuntime demoSSH ("v1.23.3+k0s.0" +:+ LF));
    reflexivity.
Defined.

Lemma NewK0sRuntime_returns_nil_installer_witness :
  checkList demoRuntime = None
  /\ NewK0sRuntime demoGetConfig demoMountDir true demoCluster
     = ((None, None), []).
Proof.
  split; [reflexivity |].
  apply (NewK0sRuntime_returns_nil_installer demoGetConfig demoMountDir true
           demoRuntime).
  reflexivity.
Defined.

Lemma NewK0sRuntime_checks_hosts_and_master0_witness :
  (exists err,
      NewK0sRuntime demoGetConfig demoMountDir false emptyCluster
      = ((None, Some err), []))
  /\ checkList demoRuntime = None.
Proof.
  split.
  - apply (NewK0sRuntime_checks_hosts_and_master0 demoGetConfig demoMountDir
             false emptyCluster).
    left. reflexivity.
  - apply (NewK0sRuntime_checks_hosts_and_master0 demoGetConfig demoMountDir
             false demoCluster); [discriminate | discriminate | reflexivity].
Defined.

Lemma JoinCommand_controller_and_worker_witness :
  JoinCommand demoExternalCRI demoConfigPath demoWorkerJoin demoControllerJoin
    demoWorkerRole demoControllerRole demoRuntime demoControllerRole
  = Some [ "mkdir -r /etc/k0s";
           "k0s config create > /etc/k0s/k0s.yaml";
           "sed -i '/  images/ a\    repository: " +:+ dquote +:+
             "sea.hub:5000" +:+ dquote +:+ "' /etc/k0s/k0s.yaml";
           "k0s install controller --token-file /etc/k0s/controller -c /etc/k0s/k0s.yaml --cri-socket remote:/run/containerd/containerd.sock";
           "k0s start" ]
  /\ JoinCommand demoExternalCRI demoConfigPath demoWorkerJoin
       demoControllerJoin demoWorkerRole demoControllerRole demoRuntime
       demoWorkerRole
     = Some [ "k0s install worker --cri-socket remote:/run/containerd/containerd.sock --token-file /etc/k0s/worker";
              "k0s start" ].
Proof.
  apply (JoinCommand_controller_and_worker demoExternalCRI demoConfigPath
           demoWorkerJoin demoControllerJoin demoWorkerRole demoControllerRole
           demo_roles_distinct demoRuntime demoRegistry).
  reflexivity.
Defined.

Lemma GetClusterMetadata_version_and_flag_witness :
  fst (GetClusterMetadata demoRuntimeFlag demoVersionCmd (demoClient demoSSH)
         demoRuntime)
  = ({| Version := "v1.23.3"; ClusterRuntime := "k0s" |}, None)
  /\ fst (GetClusterMetadata demoRuntimeFlag demoVersionCmd
            (demoClient brokenSSH) demoRuntime)
     = (Metadata_zero, Some "exit status 127").
Proof.
  split.
  - apply (GetClusterMetadata_version_and_flag demoRuntimeFlag demoVersionCmd
             (demoClient demoSSH) demoRuntime).
    reflexivity.
  - destruct (GetClusterMetadata_version_and_flag demoRuntimeFlag
                demoVersionCmd (demoClient brokenSSH) demoRuntime)
      as (_ & _ & H).
    apply (H EmptyString "exit status 127"). reflexivity.
Defined.

Lemma sendFileToHosts_waits_and_reports_witness :
  (unjoined (sendFileToHosts (demoClient demoSSH) (@rev Task) demoRuntime
               [worker2; worker3] "/tmp/kubeconfig" "/root/.kube/config") = []
   /\ exists before t after node,
       rev (map (sendFileTask (demoClient demoSSH) demoRuntime
                   "/tmp/kubeconfig" "/root/.kube/config") [worker2; worker3])
       = before ++ t :: after
       /\ Forall (fun t' : Task => fst t' = None) before
       /\ fst t = Some "failed to send file: dial tcp 10.0.0.3:22: i/o timeout"
       /\ In node [worker2; worker3]
       /\ copySucceeds (demoClient demoSSH) demoRuntime
            "/tmp/kubeconfig" "/root/.kube/config" node = false
       /\ t = sendFileTask (demoClient demoSSH) demoRuntime
                "/tmp/kubeconfig" "/root/.kube/config" node)
  /\ returned (sendFileToHosts (demoClient demoSSH) (@rev Task) demoRuntime
                 [master1; worker2] "/tmp/kubeconfig" "/root/.kube/config")
     = None.
Proof.
  split.
  - destruct (sendFileToHosts_waits_and_reports (demoClient demoSSH)
                (@rev Task) rev_finish_perm demoRuntime [worker2; worker3]
                "/tmp/kubeconfig" "/root/.kube/config")
      as ((H1 & _ & _) & _ & H3).
    split; [exact H1 |].
    apply H3. reflexivity.
  - apply (sendFileToHosts_waits_and_reports (demoClient demoSSH)
             (@rev Task) rev_finish_perm demoRuntime [master1; worker2]
             "/tmp/kubeconfig" "/root/.kube/config").
    intros node [<- | [<- | []]]; reflexivity.
Defined.

Lemma WaitSSHReady_ping_or_timeout_witness :
  waitTask (demoClient demoSSH) demoRuntime 5 worker2
  = (None, [EvPing worker2; EvSleep 0; EvPing worker2; EvSleep 1;
            EvPing worker2])
  /\ waitTask (demoClient demoSSH) demoRuntime 0 worker2
     = (Some "wait for [10.0.0.2] ssh ready timeout, ensure that the IP address or password is correct",
        [])
  /\ trace (WaitSSHReady (demoClient demoSSH) (@rev Task) demoRuntime 0
              [worker2; worker3]) = []
  /\ exists h,
      In h [worker2; worker3]
      /\ returned (WaitSSHReady (demoClient demoSSH) (@rev Task) demoRuntime 0
                     [worker2; worker3])
         = Some ("wait for [" +:+ IP_String h +:+
                 "] ssh ready timeout, ensure that the IP address or password is correct").
Proof.
  split.
  - apply (WaitSSHReady_ping_or_timeout (demoClient demoSSH) (@rev Task)
             rev_finish_perm demoRuntime 5 [worker2; worker3] worker2
           ) with (sshClient := demoSSH) (i := 2%nat).
    + reflexivity.
    + lia.
    + intros j Hj. destruct j as [|[|j]]; [discriminate | discriminate | lia].
    + reflexivity.
  - destruct (WaitSSHReady_ping_or_timeout (demoClient demoSSH) (@rev Task)
                rev_finish_perm demoRuntime 0 [worker2; worker3] worker2)
      as (_ & _ & H & _).
    destruct (H ltac:(lia)) as (H1 & H2 & H3).
    split; [exact H1 |]. split; [exact H2 |].
    apply H3. discriminate.
Defined.

(** ** Sanity checks of the embedding *)

Example Split_three_pieces :
  Split "v1.23.3+k0s.0+x" "+"%char = ["v1.23.3"; "k0s.0"; "x"].
Proof. reflexivity. Qed.

Example Split_empty_string : Split EmptyString "+"%char = [EmptyString].
Proof. reflexivity. Qed.

Example Split_trailing_separator :
  Split "v1+" "+"%char = ["v1"; EmptyString].
Proof. reflexivity. Qed.

Example TrimSpace_both_sides :
  TrimSpace ("  v1.23.3 k0s " +:+ LF) = "v1.23.3 k0s".
Proof. reflexivity. Qed.

Example getKubeVersion_on_demo :
  getKubeVersion demoVersionCmd (demoClient demoSSH) demoRuntime
  = (("v1.23.3", None), [EvCmd master1 demoVersionCmd]).
Proof. reflexivity. Qed.

Example JoinNodes_on_one_worker :
  JoinNodes demoWorkerRole demoJoinPlan demoRuntime [worker3]
  = (None, [EvInfo "%s will be added as worker" [worker3];
            EvCmd master1 "join worker"]).
Proof. reflexivity. Qed.

Example WaitSSHReady_gives_up_after_two_pings :
  waitTask (demoClient demoSSH) demoRuntime 2 worker2
  = (Some "wait for [10.0.0.2] ssh ready timeout, ensure that the IP address or password is correct",
     [EvPing worker2; EvSleep 0; EvPing worker2; EvSleep 1]).
Proof. reflexivity. Qed.

Example CopyJoinToken_without_master0 :
  CopyJoinToken demoWorkerJoin demoControllerJoin demoWorkerRole
    demoControllerRole (demoClient demoSSH)
    {| cluster := emptyCluster; Vlog := 0; RegConfig := None |}
    demoControllerRole [worker2]
  = {| returned := Some "get host failed: host is nil"; trace := [];
       unjoined := [] |}.
Proof. reflexivity. Qed.

(** ** Further properties: the order of completion, the image pull *)

(** X12. Whether [sendFileToHosts] and [WaitSSHReady] return nil does not
    depend on the order in which their goroutines finish, and the events
    they perform are the same up to their order. *)
Theorem fan_out_order_independent
  (NewStdoutSSHClient : IP -> Cluster -> SSHInterface + string)
  (finish1 finish2 : list Task -> list Task) (k : Runtime)
  (hosts : list IP) (src dst : string) (tryTimes : Z) :
  (forall l, Permutation (finish1 l) l) ->
  (forall l, Permutation (finish2 l) l) ->
  let send := fun f => sendFileToHosts NewStdoutSSHClient f k hosts src dst in
  let wait := fun f => WaitSSHReady NewStdoutSSHClient f k tryTimes hosts in
  (returned (send finish1) = None <-> returned (send finish2) = None)
  /\ Permutation (trace (send finish1)) (trace (send finish2))
  /\ (returned (wait finish1) = None <-> returned (wait finish2) = None)
  /\ Permutation (trace (wait finish1)) (trace (wait finish2)).
Proof.
  intros H1 H2 send wait. subst send wait. cbv beta.
  rewrite !sendFileToHosts_unfold, !WaitSSHReady_unfold. simpl.
  rewrite !firstError_nil_iff.
  assert (Hp : forall l : list Task, Permutation (finish1 l) (finish2 l)).
  { intros l. rewrite H1. symmetry. apply H2. }
  repeat split; intros; try (eapply Permutation_Forall; [| eassumption]);
    try apply events_perm; try apply Hp; symmetry; apply Hp.
Qed.

Lemma length_zero_empty (s : string) :
  (String.length s =? 0)%nat = true <-> s = EmptyString.
Proof.
  destruct s; simpl; split; try reflexivity; discriminate.
Qed.

(** X13. [Pull] returns nil exactly when every check passes and the library
    pull succeeds: the image name is not empty, the auth file of the
    engine's system context is accepted, the platform parses, the pull
    policy is a key of the policy map, and [buildah.Pull], called with the
    options built from them, returns no error. *)
Theorem Pull_nil_iff (w : PullWorld) (engine : Engine)
  (opts : options.PullOptions) :
  fst (Pull w engine opts) = None
  <-> options.Image opts <> EmptyString
      /\ CheckAuthFile w (types.AuthFilePath (engineSystemContext engine))
         = None
      /\ exists _os arch variant policy id,
          parsePlatform w (options.Platform opts)
          = ((_os, arch, variant), None)
          /\ PolicyMap w !! options.PullPolicy opts = Some policy
          /\ buildahPull w (options.Image opts)
               (pullOptions w engine opts _os arch variant policy)
             = (id, None).
Proof.
  unfold Pull.
  destruct (String.length (options.Image opts) =? 0)%nat eqn:Hlen.
  - apply length_zero_empty in Hlen. simpl.
    split; [discriminate | intros [H _]; contradiction].
  - assert (Hne : options.Image opts <> EmptyString).
    { intros H. apply length_zero_empty in H. congruence. }
    destruct (CheckAuthFile w _) as [e|]; simpl.
    { split; [discriminate | intros (_ & H & _); discriminate]. }
    destruct (parsePlatform w (options.Platform opts))
      as [[[_os arch] variant] [e|]]; simpl.
    { split; [discriminate |].
      intros (_ & _ & ? & ? & ? & ? & ? & H & _). discriminate. }
    destruct (PolicyMap w !! options.PullPolicy opts) as [policy|]; simpl.
    2:{ split; [discriminate |].
        intros (_ & _ & ? & ? & ? & ? & ? & _ & H & _). discriminate. }
    destruct (buildahPull w (options.Image opts)
                (pullOptions w engine opts _os arch variant policy))
      as [id [e|]] eqn:Hpull; simpl.
    + split; [discriminate |].
      intros (_ & _ & o' & a' & v' & p' & id' & Ha & Hb & Hc).
      injection Ha as <- <- <-. injection Hb as <-.
      rewrite Hpull in Hc. discriminate.
    + split; [| reflexivity]. intros _.
      split; [exact Hne |]. split; [reflexivity |].
      exists _os, arch, variant, policy, id. now repeat split.
Qed.

(** X14. The checks of [Pull], in their order; a failed check returns its
    own error and the library pull is never called.  An empty image name is
    refused first; then the error of the auth file check is returned as it
    is; then a platform that does not parse gives ["failed to init platform
    from <platform>: <cause>"]; then a pull policy that is not a key of the
    policy map gives ["unsupported pull policy <quoted policy>"]. *)
Theorem Pull_checks_in_order (w : PullWorld) (engine : Engine)
  (opts : options.PullOptions) :
  let auth :=
    CheckAuthFile w (types.AuthFilePath (engineSystemContext engine)) in
  (options.Image opts = EmptyString ->
   Pull w engine opts = (Some "an image name must be specified", []))
  /\ (options.Image opts <> EmptyString ->
      forall err, auth = Some err ->
      Pull w engine opts = (Some err, []))
  /\ (options.Image opts <> EmptyString ->
      auth = None ->
      forall r err,
        parsePlatform w (options.Platform opts) = (r, Some err) ->
        Pull w engine opts
        = (Some ("failed to init platform from " +:+ options.Platform opts
                 +:+ ": " +:+ err), []))
  /\ (options.Image opts <> EmptyString ->
      auth = None ->
      forall r,
        parsePlatform w (options.Platform opts) = (r, None) ->
        PolicyMap w !! options.PullPolicy opts = None ->
        Pull w engine opts
        = (Some ("unsupported pull policy " +:+
                 Quote w (options.PullPolicy opts)), [])).
Proof.
  intros auth. subst auth. unfold Pull.
  destruct (String.length (options.Image opts) =? 0)%nat eqn:Hlen.
  - apply length_zero_empty in Hlen.
    split; [reflexivity |]. repeat split; intros; contradiction.
  - split.
    { intros H. apply length_zero_empty in H. congruence. }
    split; [intros _ err ->; reflexivity |].
    split.
    + intros _ -> r err ->. now destruct r as [[? ?] ?].
    + intros _ -> r -> ->. now destruct r as [[? ?] ?].
Qed.

(** X15. The one call of the library.  [Pull] calls [buildah.Pull] at most
    once, and when it does: on the image of the options, with the store of
    the engine, a fresh system context whose platform is the parsed one,
    [AllTags] off, the retry constants of the package, the policy the map
    gives for the option, and a report writer that is nil exactly when
    [Quiet] is set.  The image id is logged exactly when [Pull] returns
    nil. *)
Theorem Pull_library_call (w : PullWorld) (engine : Engine)
  (opts : options.PullOptions) :
  (length (List.filter isPull (snd (Pull w engine opts))) <= 1)%nat
  /\ (forall image o,
         In (EvPull image o) (snd (Pull w engine opts)) ->
         image = options.Image opts
         /\ buildah.Store o = engineImageStore engine
         /\ buildah.AllTags o = false
         /\ buildah.MaxRetries o = maxPullPushRetries w
         /\ buildah.RetryDelay o = pullPushRetryDelay w
         /\ (buildah.ReportWriter o = None <-> options.Quiet opts = true)
         /\ PolicyMap w !! options.PullPolicy opts
            = Some (buildah.PullPolicy o)
         /\ types.AuthFilePath (buildah.SystemContext o)
            = types.AuthFilePath (systemContext w)
         /\ fst (parsePlatform w (options.Platform opts))
            = (types.OSChoice (buildah.SystemContext o),
               types.ArchitectureChoice (buildah.SystemContext o),
               types.VariantChoice (buildah.SystemContext o)))
  /\ ((exists id, In (EvInfoId id) (snd (Pull w engine opts)))
      <-> fst (Pull w engine opts) = None).
Proof.
  unfold Pull.
  destruct (String.length (options.Image opts) =? 0)%nat; simpl.
  { split; [lia |]. split; [intros ? ? [] |].
    split; [intros [? []] | discriminate]. }
  destruct (CheckAuthFile w _) as [e|]; simpl.
  { split; [lia |]. split; [intros ? ? [] |].
    split; [intros [? []] | discriminate]. }
  destruct (parsePlatform w (options.Platform opts))
    as [[[_os arch] variant] [e|]] eqn:Hplat; simpl.
  { split; [lia |]. split; [intros ? ? [] |].
    split; [intros [? []] | discriminate]. }
  destruct (PolicyMap w !! options.PullPolicy opts) as [policy|] eqn:Hpol;
    simpl.
  2:{ split; [lia |]. split; [intros ? ? [] |].
      split; [intros [? []] | discriminate]. }
  assert (Hopt : forall image o,
             EvPull (options.Image opts)
               (pullOptions w engine opts _os arch variant policy)
             = EvPull image o ->
             image = options.Image opts
             /\ buildah.Store o = engineImageStore engine
             /\ buildah.AllTags o = false
             /\ buildah.MaxRetries o = maxPullPushRetries w
             /\ buildah.RetryDelay o = pullPushRetryDelay w
             /\ (buildah.ReportWriter o = None <-> options.Quiet opts = true)
             /\ Some policy = Some (buildah.PullPolicy o)
             /\ types.AuthFilePath (buildah.SystemContext o)
                = types.AuthFilePath (systemContext w)
             /\ (_os, arch, variant)
                = (types.OSChoice (buildah.SystemContext o),
                   types.ArchitectureChoice (buildah.SystemContext o),
                   types.VariantChoice (buildah.SystemContext o))).
  { intros image o [= <- <-]. unfold pullOptions.
    destruct (options.Quiet opts); simpl; repeat split; congruence. }
  destruct (buildahPull w (options.Image opts)
              (pullOptions w engine opts _os arch variant policy))
    as [id [e|]]; simpl.
  - split; [lia |]. split.
    + intros image o [H | []]. now apply Hopt.
    + split; [intros [? [H | []]]; discriminate | discriminate].
  - split; [lia |]. split.
    + intros image o [H | [H | []]]; [now apply Hopt | discriminate].
    + split; [reflexivity |]. intros _. exists id. right. now left.
Qed.

(** ** The further properties on the sample values *)

Lemma id_finish_perm (l : list Task) : Permutation ((fun l => l) l) l.
Proof. reflexivity. Qed.

Lemma WaitSSHReady_nil_iff_witness :
  returned (WaitSSHReady (demoClient demoSSH) (@rev Task) demoRuntime 3
              [worker2; worker3]) = None.
Proof.
  apply (WaitSSHReady_nil_iff (demoClient demoSSH) (@rev Task)
           rev_finish_perm demoRuntime 3 [worker2; worker3]).
  intros host [<- | [<- | []]]; exists demoSSH, 2%nat;
    (split; [reflexivity | split; [lia | reflexivity]]).
Defined.

Lemma WaitSSHReady_failure_modes_witness :
  waitTask (demoClient demoSSH) demoRuntime 3 None
  = (Some "get host failed: host is nil", [])
  /\ waitTask (demoClient demoSSH) demoRuntime 2 worker2
     = (Some "wait for [10.0.0.2] ssh ready timeout, ensure that the IP address or password is correct",
        [EvPing worker2; EvSleep 0; EvPing worker2; EvSleep 1])
  /\ pings (snd (waitTask (demoClient demoSSH) demoRuntime 2 worker2)) = 2%nat.
Proof.
  split.
  - apply (WaitSSHReady_failure_modes (demoClient demoSSH) demoRuntime 3
             None); [reflexivity | lia].
  - apply (WaitSSHReady_failure_modes (demoClient demoSSH) demoRuntime 2
             worker2) with (c := demoSSH); [reflexivity |].
    intros i Hi. destruct i as [|[|i]]; [discriminate | discriminate | lia].
Defined.

Lemma WaitSSHReady_ping_bound_witness :
  (pings (trace (WaitSSHReady (demoClient demoSSH) (@rev Task) demoRuntime 5
                   [worker2; worker3]))
   <= length [worker2; worker3] * Z.to_nat 5)%nat
  /\ List.NoDup [worker2; worker3]
  /\ (pingsOf worker2
        (trace (WaitSSHReady (demoClient demoSSH) (@rev Task) demoRuntime 5
                  [worker2; worker3]))
      <= Z.to_nat 5)%nat.
Proof.
  assert (Hnd : List.NoDup [worker2; worker3]).
  { constructor; [intros [H | []]; discriminate H |].
    constructor; [intros [] | constructor]. }
  destruct (WaitSSHReady_ping_bound (demoClient demoSSH) (@rev Task)
              rev_finish_perm demoRuntime 5 [worker2; worker3] worker2)
    as (_ & _ & H3 & _ & H5).
  split; [exact H3 |]. split; [exact Hnd | exact (H5 Hnd)].
Defined.

(** A host listed twice is pinged by two goroutines: with [tryTimes = 2] and
    no answer, [10.0.0.2] is pinged four times. *)
Example WaitSSHReady_pings_listed_twice :
  pingsOf worker2
    (trace (WaitSSHReady (demoClient demoSSH) (fun l => l) demoRuntime 2
              [worker2; worker2]))
  = 4%nat.
Proof. reflexivity. Qed.

Lemma sendFileToHosts_copies_and_error_text_witness :
  exists node cause,
    In node [worker2; worker3]
    /\ "failed to send file: dial tcp 10.0.0.3:22: i/o timeout"
       = "failed to send file: " +:+ cause
    /\ (getHostSSHClient (demoClient demoSSH) demoRuntime node = inr cause
        \/ exists c,
            getHostSSHClient (demoClient demoSSH) demoRuntime node = inl c
            /\ Copy c node "/tmp/kubeconfig" "/root/.kube/config"
               = Some cause).
Proof.
  apply (sendFileToHosts_copies_and_error_text (demoClient demoSSH)
           (@rev Task) rev_finish_perm demoRuntime [worker2; worker3]
           "/tmp/kubeconfig" "/root/.kube/config").
  reflexivity.
Defined.

Lemma CopyJoinToken_goroutines_witness :
  CopyJoinToken demoWorkerJoin demoControllerJoin demoWorkerRole
    demoControllerRole (demoClient demoSSH) lostRuntime demoControllerRole
    [worker2]
  = {| returned := Some "get host failed: host is nil"; trace := [];
       unjoined := [] |}
  /\ unjoined
       (CopyJoinToken demoWorkerJoin demoControllerJoin demoWorkerRole
          demoControllerRole (demoClient demoSSH) demoRuntime
          demoControllerRole [worker2; worker3])
     = [ (None, [EvCopy worker2 demoControllerJoin demoControllerJoin]);
         (Some "dial tcp 10.0.0.3:22: i/o timeout",
          [EvCopy worker3 demoControllerJoin demoControllerJoin]) ].
Proof.
  split.
  - apply (CopyJoinToken_goroutines demoWorkerJoin demoControllerJoin
             demoWorkerRole demoControllerRole (demoClient demoSSH)
             lostRuntime demoControllerRole [worker2]).
    reflexivity.
  - destruct (CopyJoinToken_goroutines demoWorkerJoin demoControllerJoin
                demoWorkerRole demoControllerRole (demoClient demoSSH)
                demoRuntime demoControllerRole [worker2; worker3])
      as [_ H].
    apply (H demoSSH). reflexivity.
Defined.

Lemma getKubeVersion_command_and_errors_witness :
  snd (fst (getKubeVersion demoVersionCmd (demoClient demoSSH) lostRuntime))
  = Some "get host failed: host is nil"
  /\ snd (fst (getKubeVersion demoVersionCmd (demoClient brokenSSH)
                 demoRuntime))
     = snd (Cmd brokenSSH master1 demoVersionCmd).
Proof.
  split.
  - apply (getKubeVersion_command_and_errors demoVersionCmd
             (demoClient demoSSH) lostRuntime).
    reflexivity.
  - apply (getKubeVersion_command_and_errors demoVersionCmd
             (demoClient brokenSSH) demoRuntime).
    reflexivity.
Defined.

Lemma GetClusterMetadata_version_without_build_suffix_witness :
  contains "v1.23.3" "+"%char = false
  /\ {| Version := EmptyString; ClusterRuntime := EmptyString |}
     = Metadata_zero.
Proof.
  split.
  - apply (GetClusterMetadata_version_without_build_suffix demoRuntimeFlag
             demoVersionCmd (demoClient demoSSH) demoRuntime
             {| Version := "v1.23.3"; ClusterRuntime := "k0s" |}).
    reflexivity.
  - destruct (GetClusterMetadata_version_without_build_suffix
                demoRuntimeFlag demoVersionCmd (demoClient brokenSSH)
                demoRuntime
                {| Version := EmptyString; ClusterRuntime := EmptyString |})
      as [_ H].
    apply (H "exit status 127"). reflexivity.
Defined.

Lemma DeleteMasters_DeleteNodes_guard_witness :
  DeleteMasters demoRemoval demoRuntime [worker3]
  = (Some "drain failed",
     [EvInfo "master %s will be deleted" [worker3];
      EvCmd master1 "k0s kubectl drain"])
  /\ DeleteNodes demoRemoval demoRuntime [worker3]
     = (Some "drain failed",
        [EvInfo "worker %s will be deleted" [worker3];
         EvCmd master1 "k0s kubectl drain"]).
Proof.
  apply (DeleteMasters_DeleteNodes_guard demoRemoval demoRemoval demoRuntime
           [worker3]).
  discriminate.
Defined.

Lemma fan_out_on_empty_host_list_witness :
  sendFileToHosts (demoClient demoSSH) (@rev Task) lostRuntime []
    "/tmp/kubeconfig" "/root/.kube/config"
  = {| returned := None; trace := []; unjoined := [] |}
  /\ returned
       (CopyJoinToken demoWorkerJoin demoControllerJoin demoWorkerRole
          demoControllerRole (demoClient demoSSH) lostRuntime demoWorkerRole
          [])
     = Some "get host failed: host is nil".
Proof.
  destruct (fan_out_on_empty_host_list demoWorkerJoin demoControllerJoin
              demoWorkerRole demoControllerRole (demoClient demoSSH)
              (@rev Task) rev_finish_perm lostRuntime
              "/tmp/kubeconfig" "/root/.kube/config" demoWorkerRole 0)
    as (H1 & _ & _ & H4).
  split; [exact H1 |].
  apply H4. reflexivity.
Defined.

Lemma fan_out_order_independent_witness :
  (returned (sendFileToHosts (demoClient demoSSH) (@rev Task) demoRuntime
               [None; worker3] "/tmp/kubeconfig" "/root/.kube/config") = None
   <-> returned (sendFileToHosts (demoClient demoSSH) (fun l => l)
                   demoRuntime [None; worker3]
                   "/tmp/kubeconfig" "/root/.kube/config") = None)
  /\ Permutation
       (trace (WaitSSHReady (demoClient demoSSH) (@rev Task) demoRuntime 3
                 [None; worker3]))
       (trace (WaitSSHReady (demoClient demoSSH) (fun l => l) demoRuntime 3
                 [None; worker3])).
Proof.
  destruct (fan_out_order_independent (demoClient demoSSH) (@rev Task)
              (fun l => l) demoRuntime [None; worker3]
              "/tmp/kubeconfig" "/root/.kube/config" 3
              rev_finish_perm id_finish_perm) as (H1 & _ & _ & H4).
  split; [exact H1 | exact H4].
Defined.

(** Which error [sendFileToHosts] returns does depend on the order of
    completion, when more than one host fails. *)
Example sendFileToHosts_error_depends_on_order :
  returned (sendFileToHosts (demoClient demoSSH) (fun l => l) demoRuntime
              [None; worker3] "/tmp/kubeconfig" "/root/.kube/config")
  = Some "failed to send file: get host failed: host is nil"
  /\ returned (sendFileToHosts (demoClient demoSSH) (@rev Task) demoRuntime
                 [None; worker3] "/tmp/kubeconfig" "/root/.kube/config")
     = Some "failed to send file: dial tcp 10.0.0.3:22: i/o timeout".
Proof. split; reflexivity. Qed.

Lemma Pull_nil_iff_witness :
  fst (Pull demoPullWorld demoEngine demoPullOpts) = None.
Proof.
  apply (Pull_nil_iff demoPullWorld demoEngine demoPullOpts).
  split; [discriminate |]. split; [reflexivity |].
  exists "linux", "arm64", "v8", 0%Z, "3f1c9a".
  split; [reflexivity |]. split; [vm_compute; reflexivity | reflexivity].
Defined.

Lemma Pull_checks_in_order_witness :
  Pull demoPullWorld demoEngine noImageOpts
  = (Some "an image name must be specified", [])
  /\ Pull demoPullWorld noAuthEngine demoPullOpts
     = (Some "auth file is empty", [])
  /\ Pull demoPullWorld demoEngine badPlatformOpts
     = (Some "failed to init platform from plan9/mips: unknown platform", [])
  /\ Pull demoPullWorld demoEngine badPolicyOpts
     = (Some ("unsupported pull policy " +:+ dquote +:+ "sometimes" +:+
              dquote), []).
Proof.
  split; [| split; [| split]].
  - destruct (Pull_checks_in_order demoPullWorld demoEngine noImageOpts)
      as (H & _).
    apply H. reflexivity.
  - destruct (Pull_checks_in_order demoPullWorld noAuthEngine demoPullOpts)
      as (_ & H & _).
    apply H; [discriminate | reflexivity].
  - destruct (Pull_checks_in_order demoPullWorld demoEngine badPlatformOpts)
      as (_ & _ & H & _).
    apply (H ltac:(discriminate) eq_refl
             (EmptyString, EmptyString, EmptyString) "unknown platform").
    reflexivity.
  - destruct (Pull_checks_in_order demoPullWorld demoEngine badPolicyOpts)
      as (_ & _ & _ & H).
    apply (H ltac:(discriminate) eq_refl ("linux", "arm64", "v8"));
      [reflexivity | vm_compute; reflexivity].
Defined.

Lemma Pull_library_call_witness :
  buildah.Store (pullOptions demoPullWorld demoEngine demoPullOpts
                   "linux" "arm64" "v8" 0)
  = "/var/lib/containers/storage"
  /\ (buildah.ReportWriter (pullOptions demoPullWorld demoEngine demoPullOpts
                              "linux" "arm64" "v8" 0) = None
      <-> options.Quiet demoPullOpts = true)
  /\ fst (Pull demoPullWorld demoEngine demoPullOpts) = None.
Proof.
  destruct (Pull_library_call demoPullWorld demoEngine demoPullOpts)
    as (_ & H & Hid).
  destruct (H "kubernetes:v1.23.3"
              (pullOptions demoPullWorld demoEngine demoPullOpts
                 "linux" "arm64" "v8" 0))
    as (_ & Hs & _ & _ & _ & Hw & _).
  { left. vm_compute. reflexivity. }
  split; [exact Hs |]. split; [exact Hw |].
  apply Hid. exists "3f1c9a". right. left. vm_compute. reflexivity.
Defined.
